(** * vibe-learning hooks: activity recorder and learning trigger

    A shallow embedding of [src/hooks/track_activity.py] (the Activity
    Recorder), [src/hooks/check_learning.py] (the Trigger Evaluator) and
    [src/hooks/session_start.py] (the Session Briefer), and the properties
    of the tracker state the first two share.

    Modelling conventions.
    - A JSON document is a [pyval]: the Python value [json.load] builds.
      JSON numbers are integers (both hooks only ever write Python ints);
      floating-point numbers are not represented.
    - A Python [dict] with string keys is a [gmap string pyval].  The
      insertion order of keys, which only shows in the text [json.dump]
      writes, is not represented.
    - Python [str] is Rocq's [string], holding the UTF-8 encoding of the
      text: substring tests and comparisons are those of the bytes, a
      character is a lead byte with its continuation bytes.  [str.lower],
      which follows the Unicode tables, is not defined here: it is the
      operation [str_lower] of the class [StrLower], known only to agree
      with the ASCII case fold on ASCII text.
    - [json.load] and [json.dump] are kept abstract: the event channel
      delivers [Some v] (the parsed document) or [None] (anything that makes
      [json.load(sys.stdin)] raise), and the tracker file holds a document,
      is absent, or cannot be read as JSON.
    - Each hook is a computation in a state-and-exception monad over the
      [world]: the tracker file, whether the state directory can be created
      and the file opened for writing, the documents written so far, and the
      documents printed on standard output.  The clock reading
      [int(time.time() * 1000)] is an argument of the evaluator.
    - The text [str()] gives for a value that is not a string is a
      parameter of the evaluator ([py_repr]). *)

From Stdlib Require Import ZArith Ascii String List Bool Lia.
From stdpp Require Import gmap strings list fin_maps.

#[local] Set Warnings "-register-all".
#[local] Open Scope string_scope.
#[local] Open Scope Z_scope.

(** ** Python values and the operators the hooks apply to them *)

Module Py.

Inductive pyval : Type :=
  | PNone
  | PBool (b : bool)
  | PInt (n : Z)
  | PStr (s : string)
  | PList (l : list pyval)
  | PDict (d : gmap string pyval).

(** The exceptions the hooks can meet. *)
Inductive exn : Type :=
  | AttributeError
  | TypeError
  | KeyError
  | IndexError
  | OSError
  | UnicodeDecodeError
  | UnicodeEncodeError.

(** Evaluation of an expression: a value or a raised exception. *)
Inductive result (A : Type) : Type :=
  | Ok (a : A)
  | Err (e : exn).
Arguments Ok {A} a.
Arguments Err {A} e.

Definition bindR {A B} (r : result A) (k : A -> result B) : result B :=
  match r with
  | Ok a => k a
  | Err e => Err e
  end.

(** Python truthiness ([if v:], [not v], [a or b]). *)
Definition truthy (v : pyval) : bool :=
  match v with
  | PNone => false
  | PBool b => b
  | PInt n => negb (n =? 0)
  | PStr s => negb (String.eqb s "")
  | PList l => match l with [] => false | _ :: _ => true end
  | PDict d => negb (Nat.eqb (size d) 0)
  end.

(** [v == s] for a string [s]: only an equal string is equal to a string. *)
Definition py_eq_str (v : pyval) (s : string) : bool :=
  match v with
  | PStr s' => String.eqb s' s
  | _ => false
  end.

(** [v in strs] for a list of strings. *)
Definition py_in_strs (v : pyval) (strs : list string) : bool :=
  existsb (py_eq_str v) strs.

(** [o.get(key, dflt)]: only a dict has [get]. *)
Definition py_get (o : pyval) (key : string) (dflt : pyval) : result pyval :=
  match o with
  | PDict d => Ok (default dflt (d !! key))
  | _ => Err AttributeError
  end.

(** [o[key] = v] for a string key. *)
Definition py_setitem (o : pyval) (key : string) (v : pyval) : result pyval :=
  match o with
  | PDict d => Ok (PDict (<[key := v]> d))
  | _ => Err TypeError
  end.

(** The integer a number stands for in arithmetic; [bool] is a subclass of
    [int]. *)
Definition py_num (v : pyval) : result Z :=
  match v with
  | PInt n => Ok n
  | PBool b => Ok (if b then 1 else 0)
  | _ => Err TypeError
  end.

(** [v + k], [v < k] and [k - v] for an integer [k]. *)
Definition py_add_int (v : pyval) (k : Z) : result pyval :=
  bindR (py_num v) (fun n => Ok (PInt (n + k))).

Definition py_lt_int (v : pyval) (k : Z) : result bool :=
  bindR (py_num v) (fun n => Ok (n <? k)).

Definition py_int_sub (k : Z) (v : pyval) : result Z :=
  bindR (py_num v) (fun n => Ok (k - n)).

(** The ASCII case fold: what [s.lower()] is on ASCII text. *)
Definition ascii_lower (c : ascii) : ascii :=
  let n := nat_of_ascii c in
  if (65 <=? n)%nat && (n <=? 90)%nat then ascii_of_nat (n + 32) else c.

Fixpoint lower (s : string) : string :=
  match s with
  | EmptyString => EmptyString
  | String c r => String (ascii_lower c) (lower r)
  end.

Fixpoint is_ascii (s : string) : bool :=
  match s with
  | EmptyString => true
  | String c r => (nat_of_ascii c <? 128)%nat && is_ascii r
  end.

(** [str.lower]: some function on strings that is the ASCII case fold on
    ASCII text. *)
Class StrLower : Type := {
  str_lower : string -> string;
  str_lower_ascii : forall s, is_ascii s = true -> str_lower s = lower s
}.

(** [v.lower()]: only a string has [lower]. *)
Definition py_lower `{StrLower} (v : pyval) : result string :=
  match v with
  | PStr s => Ok (str_lower s)
  | _ => Err AttributeError
  end.

(** [needle in hay] for two strings: substring test. *)
Fixpoint contains (needle hay : string) : bool :=
  if String.prefix needle hay then true
  else match hay with
       | EmptyString => false
       | String _ r => contains needle r
       end.

(** [s in c] for a string [s]: substring of a string, element of a list,
    key of a dict; nothing else is iterable. *)
Definition py_contains_str (c : pyval) (s : string) : result bool :=
  match c with
  | PStr h => Ok (contains s h)
  | PList l => Ok (existsb (fun v => py_eq_str v s) l)
  | PDict d => Ok (match d !! s with Some _ => true | None => false end)
  | _ => Err TypeError
  end.

(** [c.append(v)], [len(c)] and [c.pop(0)]. *)
Definition py_append (c : pyval) (v : pyval) : result pyval :=
  match c with
  | PList l => Ok (PList (l ++ [v]))
  | _ => Err AttributeError
  end.

(** A continuation byte of a multi-byte character. *)
Definition is_continuation (c : ascii) : bool :=
  let n := nat_of_ascii c in (128 <=? n)%nat && (n <? 192)%nat.

Fixpoint all_continuation (s : string) : bool :=
  match s with
  | EmptyString => true
  | String c r => is_continuation c && all_continuation r
  end.

(** The number of characters of a string. *)
Fixpoint char_count (s : string) : nat :=
  match s with
  | EmptyString => 0
  | String c r => if is_continuation c then char_count r
                  else S (char_count r)
  end.

Definition py_len (c : pyval) : result nat :=
  match c with
  | PList l => Ok (length l)
  | PStr s => Ok (char_count s)
  | PDict d => Ok (size d)
  | _ => Err TypeError
  end.

Definition py_pop0 (c : pyval) : result pyval :=
  match c with
  | PList [] => Err IndexError
  | PList (_ :: l) => Ok (PList l)
  | PDict _ => Err KeyError
  | _ => Err AttributeError
  end.

(** The last character of a string: its last lead byte with the
    continuation bytes that follow it. *)
Fixpoint last_char (s : string) : option string :=
  match s with
  | EmptyString => None
  | String c r => if all_continuation r then Some (String c r)
                  else last_char r
  end.

(** [c[-1]]. *)
Definition py_last (c : pyval) : result pyval :=
  match c with
  | PList l => match last l with Some v => Ok v | None => Err IndexError end
  | PStr s => match last_char s with
              | Some ch => Ok (PStr ch)
              | None => Err IndexError
              end
  | PDict _ => Err KeyError
  | _ => Err TypeError
  end.

(** *** The world a hook runs in *)

Inductive file_state : Type :=
  | Absent
  | Corrupt
  | Content (v : pyval).

Record world : Type := World {
  tracker_file : file_state;
  dir_creatable : bool;
  file_writable : bool;
  written : list pyval;
  stdout : list pyval
}.

(** How a statement ends: normally, with an exception, or by [sys.exit]. *)
Inductive outcome (A : Type) : Type :=
  | Ret (a : A)
  | Raise (e : exn)
  | SysExit (code : Z).
Arguments Ret {A} a.
Arguments Raise {A} e.
Arguments SysExit {A} code.

Definition M (A : Type) : Type := world -> outcome A * world.

Definition ret {A} (a : A) : M A := fun w => (Ret a, w).

Definition bind {A B} (m : M A) (k : A -> M B) : M B :=
  fun w =>
    match m w with
    | (Ret a, w') => k a w'
    | (Raise e, w') => (Raise e, w')
    | (SysExit c, w') => (SysExit c, w')
    end.

Definition lift {A} (r : result A) : M A :=
  fun w =>
    match r with
    | Ok a => (Ret a, w)
    | Err e => (Raise e, w)
    end.

Definition sys_exit {A} (code : Z) : M A := fun w => (SysExit code, w).

(** [os.makedirs(os.path.dirname(TRACKER_FILE), exist_ok=True)]. *)
Definition makedirs : M unit :=
  fun w => if dir_creatable w then (Ret tt, w) else (Raise OSError, w).

(** [with open(TRACKER_FILE, 'w') as f: json.dump(tracker, f)].  A write
    that fails is one where the file cannot be opened: [open] raises and
    the file keeps its content. *)
Definition write_file (v : pyval) : M unit :=
  fun w =>
    if file_writable w
    then (Ret tt, {| tracker_file := Content v;
                     dir_creatable := dir_creatable w;
                     file_writable := file_writable w;
                     written := v :: written w;
                     stdout := stdout w |})
    else (Raise OSError, w).

(** [print(json.dumps(doc))]. *)
Definition print (doc : pyval) : M unit :=
  fun w => (Ret tt, {| tracker_file := tracker_file w;
                       dir_creatable := dir_creatable w;
                       file_writable := file_writable w;
                       written := written w;
                       stdout := stdout w ++ [doc] |}).

(** The exit status of the process: an uncaught exception ends it with
    status 1. *)
Definition exit_status {A} (o : outcome A) : Z :=
  match o with
  | Ret _ => 0
  | SysExit c => c
  | Raise _ => 1
  end.

End Py.

Import Py.

Declare Scope py_scope.
Delimit Scope py_scope with py.
Notation "x <- m ;; k" := (bind m (fun x => k))
  (at level 100, m at next level, right associativity) : py_scope.
Notation "m ;;; k" := (bind m (fun _ => k))
  (at level 100, right associativity) : py_scope.
Notation "x <~ r ;; k" := (bindR r (fun x => k))
  (at level 100, r at next level, right associativity) : py_scope.
#[local] Open Scope py_scope.

(** The record both hooks fall back to when the file is absent or cannot be
    read. *)
Definition default_tracker : gmap string pyval :=
  <["tool_count" := PInt 0]>
    (<["last_learning_prompt" := PInt 0]>
       (<["senior_enabled" := PBool true]>
          (<["after_enabled" := PBool true]>
             (<["concepts" := PList []]> ∅)))).

(** ** [track_activity.py]: the Activity Recorder *)

Module TrackActivity.

Definition SIGNIFICANT_TOOLS : list string := ["Edit"; "Write"; "Bash"].

Definition ensure_dir : M unit := makedirs.

Definition load_tracker : M pyval :=
  ensure_dir ;;;
  fun w =>
    match tracker_file w with
    | Content v => (Ret v, w)
    | Absent | Corrupt => (Ret (PDict default_tracker), w)
    end.

Definition save_tracker (tracker : pyval) : M unit :=
  ensure_dir ;;;
  write_file tracker.

Definition patterns : list (list string * string) :=
  [ (["test"; "spec"], "unit-testing");
    (["auth"; "login"; "jwt"], "authentication");
    (["api"; "endpoint"; "route"], "api-design");
    (["cache"; "redis"], "caching");
    ([".tsx"; ".jsx"], "react-components");
    (["db"; "database"; "prisma"], "database") ].

(** [for kw in keywords: if kw.lower() in file_path.lower(): return concept] *)
Fixpoint scan_keywords `{StrLower} (keywords : list string)
    (file_path : pyval) : result bool :=
  match keywords with
  | [] => Ok false
  | kw :: rest =>
      fp <~ py_lower file_path ;;
      if contains (str_lower kw) fp then Ok true
      else scan_keywords rest file_path
  end.

(** [for keywords, concept in patterns: ...] *)
Fixpoint scan_patterns `{StrLower} (ps : list (list string * string))
    (file_path : pyval) : result (option string) :=
  match ps with
  | [] => Ok None
  | (keywords, concept) :: rest =>
      hit <~ scan_keywords keywords file_path ;;
      if hit then Ok (Some concept)
      else scan_patterns rest file_path
  end.

(** The result is [Some concept] for a returned string and [None] for
    Python's [None]. *)
Definition extract_concept `{StrLower} (tool_name : pyval)
    (tool_input : pyval) : result (option string) :=
  fp1 <~ py_get tool_input "file_path" (PStr "") ;;
  file_path <~ (if truthy fp1 then Ok fp1
                else py_get tool_input "path" (PStr "")) ;;
  command <~ py_get tool_input "command" (PStr "") ;;
  found <~ scan_patterns patterns file_path ;;
  match found with
  | Some concept => Ok (Some concept)
  | None =>
      git <~ py_contains_str command "git" ;;
      if git then Ok (Some "git-workflow")
      else
        docker <~ py_contains_str command "docker" ;;
        if docker then Ok (Some "containerization")
        else Ok None
  end.

(** [if concept: ...]: the update of the recency list.  The list object is
    the one stored in the tracker (or a fresh [[]] when the key is
    missing); it is mutated in place and then stored back, so the tracker
    ends with the updated list under ["concepts"]. *)
Definition update_concepts (tracker : pyval) (concept : option string)
  : result pyval :=
  match concept with
  | None => Ok tracker
  | Some c =>
      if truthy (PStr c) then
        concepts <~ py_get tracker "concepts" (PList []) ;;
        present <~ py_contains_str concepts c ;;
        if negb present then
          concepts <~ py_append concepts (PStr c) ;;
          n <~ py_len concepts ;;
          concepts <~ (if (10 <? n)%nat then py_pop0 concepts
                       else Ok concepts) ;;
          py_setitem tracker "concepts" concepts
        else Ok tracker
      else Ok tracker
  end.

Definition main `{StrLower} (stdin : option pyval) : M unit :=
  match stdin with
  | None => sys_exit 0
  | Some data =>
      tool_name <- lift (py_get data "tool_name" (PStr "")) ;;
      if negb (py_in_strs tool_name SIGNIFICANT_TOOLS) then sys_exit 0
      else
        tracker <- load_tracker ;;
        count <- lift (py_get tracker "tool_count" (PInt 0)) ;;
        count <- lift (py_add_int count 1) ;;
        tracker <- lift (py_setitem tracker "tool_count" count) ;;
        tool_input <- lift (py_get data "tool_input" (PDict ∅)) ;;
        concept <- lift (extract_concept tool_name tool_input) ;;
        tracker <- lift (update_concepts tracker concept) ;;
        save_tracker tracker ;;;
        sys_exit 0
  end.

End TrackActivity.

(** ** [check_learning.py]: the Trigger Evaluator *)

Module CheckLearning.

Definition TOOL_THRESHOLD : Z := 3.
Definition COOLDOWN_MS : Z := 15 * 60 * 1000.

Definition load_tracker : M pyval :=
  fun w =>
    match tracker_file w with
    | Content v => (Ret v, w)
    | Absent | Corrupt => (Ret (PDict default_tracker), w)
    end.

Definition save_tracker (tracker : pyval) : M unit :=
  makedirs ;;;
  write_file tracker.

Definition nl : string := String (ascii_of_nat 10) EmptyString.
Definition dq : string := String (ascii_of_nat 34) EmptyString.

Definition unlines (ls : list string) : string := String.concat nl ls.

(** The f-string of [main], with [{concept_hint}] already formatted. *)
Definition reason (concept_hint : string) : string :=
  unlines
    [ "[VibeLearning - Task Completion]";
      "";
      "Execute these steps NOW:";
      "";
      "1. Record 1-2 unknown unknowns (related concepts user might not know):";
      "   mcp__vibe-learning__record_unknown_unknown({";
      "     concept_id: " ++ dq ++ "related-concept" ++ dq ++ ",";
      "     related_to: " ++ dq ++ concept_hint ++ dq ++ ",";
      "     context: " ++ dq ++ "brief context" ++ dq ++ ",";
      "     why_important: " ++ dq ++ "why important" ++ dq;
      "   })";
      "";
      "2. Call mcp__vibe-learning__should_ask_question to check if learning question needed.";
      "";
      "3. If shouldAsk is true:";
      "   - Call mcp__vibe-learning__get_concept_level with concept_id='"
        ++ concept_hint ++ "'";
      "   - Ask with format:";
      "     **[VibeLearning]**";
      "     _Learning Question (Level X)_";
      "     [Your question]?";
      "   - After answer, call mcp__vibe-learning__record_learning";
      "";
      "4. If shouldAsk is false: you may stop." ]%string.

(** The document [{"decision": "block", "reason": reason}]. *)
Definition block_document (reason : string) : pyval :=
  PDict (<["decision" := PStr "block"]> (<["reason" := PStr reason]> ∅)).

Section Formatting.

(** What [str()] gives for a value that is not a string (its [repr]); the
    hook only formats the concept hint, and no property below depends on
    the text of a number, a list or a dict. *)
Variable py_repr : pyval -> string.

Definition py_str (v : pyval) : string :=
  match v with
  | PStr s => s
  | _ => py_repr v
  end.

Definition main (stdin : option pyval) (now : Z) : M unit :=
  let data := match stdin with Some v => v | None => PDict ∅ end in
  tracker <- load_tracker ;;
  tool_count <- lift (py_get tracker "tool_count" (PInt 0)) ;;
  last_prompt <- lift (py_get tracker "last_learning_prompt" (PInt 0)) ;;
  after_enabled <- lift (py_get tracker "after_enabled" (PBool true)) ;;
  quiet <- lift (if negb (truthy after_enabled) then Ok true
                 else py_lt_int tool_count TOOL_THRESHOLD) ;;
  if quiet then sys_exit 0
  else
    elapsed <- lift (py_int_sub now last_prompt) ;;
    if elapsed <? COOLDOWN_MS then sys_exit 0
    else
      concepts <- lift (py_get tracker "concepts" (PList [])) ;;
      concept_hint <- lift (if truthy concepts then py_last concepts
                            else Ok (PStr "the task you just completed")) ;;
      tracker <- lift (py_setitem tracker "tool_count" (PInt 0)) ;;
      tracker <- lift (py_setitem tracker "last_learning_prompt" (PInt now)) ;;
      save_tracker tracker ;;;
      print (block_document (reason (py_str concept_hint))) ;;;
      sys_exit 0.

End Formatting.

End CheckLearning.

(** ** [session_start.py]: the Session Briefer *)

Module SessionStart.

(** A row of [unknown_unknowns] as the first query selects it
    ([concept_id, related_to, why_important, appearances]) and a row of
    [concept_progress] as the second does ([concept_id, current_level]).
    A column value is the Python value [sqlite3] hands over: [None], an
    integer or a string (reals and blobs are not represented). *)
Definition unknown_row : Type := pyval * pyval * pyval * pyval.
Definition review_row : Type := pyval * pyval.

(** The learning database as the two queries see it: the file is missing,
    or each query either fails (no such table, not a database, locked
    file: anything [sqlite3] raises) or answers with the rows its [WHERE]
    clause selects, in the order of its [ORDER BY] clause. *)
Inductive database : Type :=
  | NoDatabase
  | Database (unexplored : option (list unknown_row))
             (due : option (list review_row)).

(** [LIMIT ?]: the first [limit] rows; a negative limit is no limit. *)
Definition sql_limit {A} (limit : Z) (rows : list A) : list A :=
  if limit <? 0 then rows else take (Z.to_nat limit) rows.

(** [{"concept": r[0], "related": r[1], "why": r[2], "count": r[3]}] *)
Definition unknown_dict (r : unknown_row) : gmap string pyval :=
  let '(concept_id, related_to, why_important, appearances) := r in
  <["concept" := concept_id]>
    (<["related" := related_to]>
       (<["why" := why_important]>
          (<["count" := appearances]> ∅))).

(** [{"concept": r[0], "level": r[1]}] *)
Definition review_dict (r : review_row) : gmap string pyval :=
  let '(concept_id, current_level) := r in
  <["concept" := concept_id]> (<["level" := current_level]> ∅).

Definition get_unknown_unknowns (limit : Z) (db : database)
  : list (gmap string pyval) :=
  match db with
  | NoDatabase => []
  | Database (Some rows) _ => map unknown_dict (sql_limit limit rows)
  | Database None _ => []
  end.

Definition get_due_reviews (limit : Z) (db : database)
  : list (gmap string pyval) :=
  match db with
  | NoDatabase => []
  | Database _ (Some rows) => map review_dict (sql_limit limit rows)
  | Database _ None => []
  end.

(** [d[key]] on a dict. *)
Definition py_getitem (d : gmap string pyval) (key : string) : result pyval :=
  match d !! key with
  | Some v => Ok v
  | None => Err KeyError
  end.

Definition nl : string := String (ascii_of_nat 10) EmptyString.

Definition header : string := "# [vibe-learning] Session Context".
Definition unknowns_title : string :=
  "## Unknown Unknowns (concepts to explore)".
Definition due_title : string := "## Due for Review".
Definition no_pending : string := "No pending items. Ready to learn!".

Section Formatting.

Variable py_repr : pyval -> string.

Definition py_str : pyval -> string := CheckLearning.py_str py_repr.

(** [f"- **{u['concept']}** (from {u['related']}): {u['why']}"] *)
Definition unknown_line (u : gmap string pyval) : result string :=
  concept <~ py_getitem u "concept" ;;
  related <~ py_getitem u "related" ;;
  why <~ py_getitem u "why" ;;
  Ok ("- **" ++ py_str concept ++ "** (from " ++ py_str related ++ "): "
        ++ py_str why)%string.

(** [f"- {d['concept']} (Level {d['level']})"] *)
Definition due_line (d : gmap string pyval) : result string :=
  concept <~ py_getitem d "concept" ;;
  level <~ py_getitem d "level" ;;
  Ok ("- " ++ py_str concept ++ " (Level " ++ py_str level ++ ")")%string.

(** [for x in xs: lines.append(line x)] *)
Fixpoint append_lines (line : gmap string pyval -> result string)
    (xs : list (gmap string pyval)) (lines : list string)
  : result (list string) :=
  match xs with
  | [] => Ok lines
  | x :: rest =>
      l <~ line x ;;
      append_lines line rest (lines ++ [l])%list
  end.

(** The list [lines] of [generate_context], before it is joined. *)
Definition context_lines (db : database) : result (list string) :=
  let lines := [header; ""] in
  let unknowns := get_unknown_unknowns 5 db in
  lines <~ (match unknowns with
            | [] => Ok lines
            | _ :: _ =>
                lines <~ append_lines unknown_line unknowns
                           (lines ++ [unknowns_title])%list ;;
                Ok (lines ++ [""])%list
            end) ;;
  let due := get_due_reviews 5 db in
  lines <~ (match due with
            | [] => Ok lines
            | _ :: _ =>
                lines <~ append_lines due_line due
                           (lines ++ [due_title])%list ;;
                Ok (lines ++ [""])%list
            end) ;;
  match unknowns, due with
  | [], [] => Ok (lines ++ [no_pending] ++ [""])%list
  | _, _ => Ok lines
  end.

Definition generate_context (db : database) : result string :=
  lines <~ context_lines db ;;
  Ok (String.concat nl lines).

(** What a run prints: [Text s] for [print(s)], [Json doc] for
    [print(json.dumps(doc))]. *)
Inductive emitted : Type :=
  | Text (s : string)
  | Json (doc : pyval).

Record streams : Type := Streams {
  to_stdout : list emitted;
  to_stderr : list string
}.

(** The console the hook runs on: whether standard input is a terminal,
    what [sys.stdin.read()] does (it returns the text or raises, with
    [UnicodeDecodeError] on input that cannot be decoded for one), and
    whether a [print] on either stream raises ([UnicodeEncodeError] on text
    the stream cannot encode, [OSError] on a closed pipe). *)
Record console : Type := Console {
  isatty : bool;
  stdin_read : result string;
  stdout_print : emitted -> option exn;
  stderr_print : string -> option exn
}.

(** [{"hookSpecificOutput": {"hookEventName": "SessionStart",
      "additionalContext": context}}] *)
Definition hook_output (context : string) : pyval :=
  PDict (<["hookSpecificOutput" :=
             PDict (<["hookEventName" := PStr "SessionStart"]>
                      (<["additionalContext" := PStr context]> ∅))]> ∅).

Definition nothing : streams := {| to_stdout := []; to_stderr := [] |}.

(** The result is how [main] ends (normally, or with the exception that
    ends the process with status 1) and what it printed until then.
    Nothing in [main] is inside a [try]. *)
Definition main (c : console) (db : database) : result unit * streams :=
  if isatty c then
    match generate_context db with
    | Err e => (Err e, nothing)
    | Ok context =>
        match stdout_print c (Text context) with
        | Some e => (Err e, nothing)
        | None => (Ok tt, {| to_stdout := [Text context]; to_stderr := [] |})
        end
    end
  else
    match stdin_read c with
    | Err e => (Err e, nothing)
    | Ok stdin_data =>
        match generate_context db with
        | Err e => (Err e, nothing)
        | Ok context =>
            match stderr_print c context with
            | Some e => (Err e, nothing)
            | None =>
                match stdout_print c (Json (hook_output context)) with
                | Some e =>
                    (Err e, {| to_stdout := []; to_stderr := [context] |})
                | None =>
                    (Ok tt, {| to_stdout := [Json (hook_output context)];
                               to_stderr := [context] |})
                end
            end
        end
    end.

End Formatting.

End SessionStart.

(** The ASCII case fold as an instance of [str.lower]: what [str.lower]
    is as long as the text at hand is ASCII. *)
Definition ascii_fold : StrLower :=
  {| str_lower := lower; str_lower_ascii := fun s _ => eq_refl |}.

(** Everything below holds for every [str.lower] of the class. *)
Section Hooks.

Context {lowering : StrLower}.

(** ** The tracker state of the specification *)

Record TrackerState : Type := {
  toolCount : Z;
  lastLearningPromptAt : Z;
  afterModeEnabled : bool;
  seniorModeEnabled : bool;
  recentConcepts : list string
}.

(** The JSON object a tracker state is stored as. *)
Definition state_json (st : TrackerState) : gmap string pyval :=
  <["tool_count" := PInt (toolCount st)]>
    (<["last_learning_prompt" := PInt (lastLearningPromptAt st)]>
       (<["senior_enabled" := PBool (seniorModeEnabled st)]>
          (<["after_enabled" := PBool (afterModeEnabled st)]>
             (<["concepts" := PList (PStr <$> recentConcepts st)]> ∅)))).

Definition default_state : TrackerState :=
  {| toolCount := 0; lastLearningPromptAt := 0; afterModeEnabled := true;
     seniorModeEnabled := true; recentConcepts := [] |}.

(** The document a hook loads: the file's, or the default record when the
    file is absent or cannot be read. *)
Definition loaded (w : world) : pyval :=
  match tracker_file w with
  | Content v => v
  | Absent | Corrupt => PDict default_tracker
  end.

(** The world [w] holds the tracker state [st]: that is the state a hook
    reads from it. *)
Definition holds (w : world) (st : TrackerState) : Prop :=
  loaded w = PDict (state_json st).

(** ** The two hooks as processes *)

(** Running a hook: the exit status of the process and the world it
    leaves. *)
Definition run (hook : M unit) (w : world) : Z * world :=
  let '(o, w') := hook w in (exit_status o, w').

(** The recorder on the event input [stdin]. *)
Definition recordEvent (stdin : option pyval) (w : world) : Z * world :=
  run (TrackActivity.main stdin) w.

(** The evaluator on the event input [stdin] at clock reading [now]. *)
Definition evaluate (py_repr : pyval -> string) (stdin : option pyval)
    (now : Z) (w : world) : Z * world :=
  run (CheckLearning.main py_repr stdin now) w.

Inductive Decision : Type :=
  | Allow
  | Block (promptText : string).

(** A run of the evaluator from [w] decides [Allow] when the process exits
    with status 0 having printed nothing, and [Block promptText] when it
    exits with status 0 having printed the block document carrying
    [promptText]. *)
Definition decides (w : world) (r : Z * world) (d : Decision) : Prop :=
  r.1 = 0 /\
  stdout r.2 = (stdout w ++ match d with
                            | Allow => []
                            | Block promptText =>
                                [CheckLearning.block_document promptText]
                            end)%list.

(** The topic [TrackActivity.main] infers from the event object [data]. *)
Definition event_concept (data tool_name : pyval) : result (option string) :=
  tool_input <~ py_get data "tool_input" (PDict ∅) ;;
  TrackActivity.extract_concept tool_name tool_input.

(** One step in the life of the tracker file: an invocation of either hook,
    or a change of the filesystem condition between two invocations. *)
Inductive action : Type :=
  | RecordEvent (stdin : option pyval)
  | Evaluate (stdin : option pyval) (now : Z)
  | Environment (creatable writable : bool).

Definition perform (py_repr : pyval -> string) (a : action) (w : world)
  : world :=
  match a with
  | RecordEvent stdin => (recordEvent stdin w).2
  | Evaluate stdin now => (evaluate py_repr stdin now w).2
  | Environment creatable writable =>
      {| tracker_file := tracker_file w; dir_creatable := creatable;
         file_writable := writable; written := written w;
         stdout := stdout w |}
  end.

Definition perform_all (py_repr : pyval -> string) (acts : list action)
    (w : world) : world :=
  fold_left (fun w a => perform py_repr a w) acts w.

(** ** What the specification's operations do to a tracker state *)

(** The state after a learning prompt issued at [now]. *)
Definition prompted (now : Z) (st : TrackerState) : TrackerState :=
  {| toolCount := 0; lastLearningPromptAt := now;
     afterModeEnabled := afterModeEnabled st;
     seniorModeEnabled := seniorModeEnabled st;
     recentConcepts := recentConcepts st |}.

(** The concept hint: the most recent entry, or the fixed fallback. *)
Definition conceptHint (st : TrackerState) : string :=
  match last (recentConcepts st) with
  | Some c => c
  | None => "the task you just completed"
  end.

(** Appending a topic to the recency list: nothing for a topic already
    there, otherwise append and drop the oldest entry above 10. *)
Definition remember (c : string) (cs : list string) : list string :=
  if bool_decide (c ∈ cs) then cs
  else if (10 <? length (cs ++ [c]))%nat then tail (cs ++ [c])
       else cs ++ [c].

(** The state after one significant event with inferred topic [concept]. *)
Definition recorded (concept : option string) (st : TrackerState)
  : TrackerState :=
  {| toolCount := toolCount st + 1;
     lastLearningPromptAt := lastLearningPromptAt st;
     afterModeEnabled := afterModeEnabled st;
     seniorModeEnabled := seniorModeEnabled st;
     recentConcepts :=
       match concept with
       | Some c => if String.eqb c "" then recentConcepts st
                   else remember c (recentConcepts st)
       | None => recentConcepts st
       end |}.

(** The world after a successful write of [v], after printing [doc], and
    with the tracker file replaced by [f]. *)
Definition wrote (v : pyval) (w : world) : world :=
  {| tracker_file := Content v; dir_creatable := dir_creatable w;
     file_writable := file_writable w; written := v :: written w;
     stdout := stdout w |}.

Definition printed (doc : pyval) (w : world) : world :=
  {| tracker_file := tracker_file w; dir_creatable := dir_creatable w;
     file_writable := file_writable w; written := written w;
     stdout := stdout w ++ [doc] |}.

Definition set_file (f : file_state) (w : world) : world :=
  {| tracker_file := f; dir_creatable := dir_creatable w;
     file_writable := file_writable w; written := written w;
     stdout := stdout w |}.

(** *** Topic inference *)

(** The ordered rule list of the specification: keyword set, topic. *)
Definition topic_rules : list (list string * string) :=
  [ (["test"; "spec"], "unit-testing");
    (["auth"; "login"; "jwt"], "authentication");
    (["api"; "endpoint"; "route"], "api-design");
    (["cache"; "redis"], "caching");
    ([".tsx"; ".jsx"], "react-components");
    (["db"; "database"; "prisma"], "database") ].

(** A rule matches a path when one of its keywords is a substring of it,
    letter case ignored: the keyword in lower case occurs in the path in
    lower case. *)
Definition rule_matches (path : string) (rule : list string * string)
  : bool :=
  existsb (fun kw => contains (str_lower kw) (str_lower path)) rule.1.

(** The specification's [inferTopic]: the topic of the first rule matching
    the path; failing that [git], then [docker], looked up in the
    command. *)
Definition inferTopic (path command : string) : option string :=
  match find (rule_matches path) topic_rules with
  | Some rule => Some rule.2
  | None =>
      if contains "git" command then Some "git-workflow"
      else if contains "docker" command then Some "containerization"
           else None
  end.

(** On ASCII text, letter case ignored means this, with no case fold
    involved: two characters are the same letter when they are equal or
    one is a capital [A]..[Z] and the other the small letter 32 above. *)
Definition is_capital (c : ascii) : bool :=
  let n := nat_of_ascii c in (65 <=? n)%nat && (n <=? 90)%nat.

Definition same_letter (a b : ascii) : bool :=
  Ascii.eqb a b
  || (is_capital a && Nat.eqb (nat_of_ascii b) (nat_of_ascii a + 32))
  || (is_capital b && Nat.eqb (nat_of_ascii a) (nat_of_ascii b + 32)).

Fixpoint caseless_prefix (s1 s2 : string) : bool :=
  match s1, s2 with
  | EmptyString, _ => true
  | String _ _, EmptyString => false
  | String a r1, String b r2 => same_letter a b && caseless_prefix r1 r2
  end.

Fixpoint caseless_contains (needle hay : string) : bool :=
  if caseless_prefix needle hay then true
  else match hay with
       | EmptyString => false
       | String _ r => caseless_contains needle r
       end.

(** [inferTopic] on an ASCII path, stated with the letter-by-letter
    comparison. *)
Definition inferTopic_caseless (path command : string) : option string :=
  match find (fun rule : list string * string =>
                existsb (fun kw => caseless_contains kw path) rule.1)
             topic_rules with
  | Some rule => Some rule.2
  | None =>
      if contains "git" command then Some "git-workflow"
      else if contains "docker" command then Some "containerization"
           else None
  end.

Definition all_ascii : list ascii := map ascii_of_nat (seq 0 256).

(** *** Tracker objects with missing fields *)

(** The per-field defaults the hooks use at the point of use. *)
Definition field_defaults : gmap string pyval :=
  <["tool_count" := PInt 0]>
    (<["last_learning_prompt" := PInt 0]>
       (<["after_enabled" := PBool true]>
          (<["concepts" := PList []]> ∅))).

(** A tracker object with each missing field set to its default; the
    fields present keep their values. *)
Definition with_defaults (d : gmap string pyval) : gmap string pyval :=
  d ∪ field_defaults.

Definition fill_val (v : pyval) : pyval :=
  match v with
  | PDict d => PDict (with_defaults d)
  | _ => v
  end.

Definition fill_file (f : file_state) : file_state :=
  match f with
  | Content v => Content (fill_val v)
  | Absent | Corrupt => f
  end.

(** Two runs agree up to the defaults of missing fields: same outcome,
    same output, and the same tracker file once the missing fields of the
    first are set to their defaults. *)
Definition agree_up_to_defaults {A} (r r' : outcome A * world) : Prop :=
  r.1 = r'.1 /\
  stdout r.2 = stdout r'.2 /\
  fill_file (tracker_file r.2) = tracker_file r'.2.

(** *** Well-formed event objects *)

(** The field [key] of an object is a string when present. *)
Definition string_field (d : gmap string pyval) (key : string) : Prop :=
  match d !! key with
  | None | Some (PStr _) => True
  | Some _ => False
  end.

(** An event object as the host sends it: [tool_input], when present, is an
    object whose [file_path], [path] and [command] are strings. *)
Definition well_formed_event (data : gmap string pyval) : Prop :=
  match data !! "tool_input" with
  | None => True
  | Some (PDict tool_input) =>
      string_field tool_input "file_path" /\
      string_field tool_input "path" /\
      string_field tool_input "command"
  | Some _ => False
  end.

(** *** Sample worlds, states and events *)

(** A world where the state directory can be created and the file
    written, and one where the file cannot be opened for writing. *)
Definition sample_world (f : file_state) : world :=
  {| tracker_file := f; dir_creatable := true; file_writable := true;
     written := []; stdout := [] |}.

Definition unwritable_world (f : file_state) : world :=
  {| tracker_file := f; dir_creatable := true; file_writable := false;
     written := []; stdout := [] |}.

Definition authentication_state (count last : Z) : TrackerState :=
  {| toolCount := count; lastLearningPromptAt := last;
     afterModeEnabled := true; seniorModeEnabled := true;
     recentConcepts := ["authentication"] |}.

Definition ten_topics : list string :=
  ["t0"; "t1"; "t2"; "t3"; "t4"; "t5"; "t6"; "t7"; "t8"; "t9"].

Definition full_state : TrackerState :=
  {| toolCount := 10; lastLearningPromptAt := 0; afterModeEnabled := true;
     seniorModeEnabled := true; recentConcepts := ten_topics |}.

(** [{"tool_name": "Edit", "tool_input": {"file_path": path}}] *)
Definition edit_event (path : string) : pyval :=
  PDict (<["tool_name" := PStr "Edit"]>
           (<["tool_input" := PDict (<["file_path" := PStr path]> ∅)]> ∅)).

(** [{"tool_name": "Read", "tool_input": {"file_path": ...}}] *)
Definition read_event : gmap string pyval :=
  <["tool_name" := PStr "Read"]>
    (<["tool_input" :=
         PDict (<["file_path" := PStr "/src/auth/login.ts"]> ∅)]> ∅).

(** The tool input [{"command": "git commit -m x"}]. *)
Definition git_input : gmap string pyval :=
  <["command" := PStr "git commit -m x"]> ∅.

(** A tracker object with only [tool_count]. *)
Definition count_only (n : Z) : gmap string pyval :=
  <["tool_count" := PInt n]> ∅.

(** *** Topics, counted events and the briefing *)

(** The labels [extract_concept] can return. *)
Definition topic_labels : list string :=
  ["unit-testing"; "authentication"; "api-design"; "caching";
   "react-components"; "database"; "git-workflow"; "containerization"].

(** A recency list made of distinct labels. *)
Definition labelled (st : TrackerState) : Prop :=
  NoDup (recentConcepts st) /\
  forall c, c ∈ recentConcepts st -> c ∈ topic_labels.

(** The number of recorder invocations in a sequence of actions. *)
Fixpoint recorder_calls (acts : list action) : nat :=
  match acts with
  | [] => 0
  | RecordEvent _ :: rest => S (recorder_calls rest)
  | _ :: rest => recorder_calls rest
  end.

(** The briefing when nothing is pending. *)
Definition empty_briefing : string :=
  String.concat SessionStart.nl
    [SessionStart.header; ""; SessionStart.no_pending; ""].

(** The lines of a text: the pieces between its newline characters. *)
Definition newline : ascii := ascii_of_nat 10.

Fixpoint newline_free (s : string) : bool :=
  match s with
  | EmptyString => true
  | String c r => negb (Ascii.eqb c newline) && newline_free r
  end.

Fixpoint lines_of (s : string) : list string :=
  match s with
  | EmptyString => [""]
  | String c r =>
      if Ascii.eqb c newline then "" :: lines_of r
      else match lines_of r with
           | l :: ls => String c l :: ls
           | [] => [String c ""]
           end
  end.

(** A bullet line of the briefing starts with a dash. *)
Definition is_bullet (line : string) : bool := String.prefix "- " line.

(** A database with three unexplored concepts and one review due, and one
    whose second query fails. *)
Definition sample_rows : list SessionStart.unknown_row :=
  [ (PStr "oauth", PStr "authentication", PStr "token refresh", PInt 3);
    (PStr "etag", PStr "caching", PStr "validation", PInt 2);
    (PStr "mocks", PStr "unit-testing", PStr "isolation", PInt 1) ].

Definition sample_database : SessionStart.database :=
  SessionStart.Database (Some sample_rows) (Some [(PStr "jwt", PInt 2)]).

Definition half_broken_database : SessionStart.database :=
  SessionStart.Database (Some sample_rows) None.


(** A tracker object whose after mode is off and whose other fields are
    ill-typed. *)
Definition disabled_object : gmap string pyval :=
  <["after_enabled" := PBool false]>
    (<["tool_count" := PStr "many"]>
       (<["last_learning_prompt" := PNone]> ∅)).

(** A tool input whose path matches a rule and whose command is a
    number. *)
Definition odd_command_input : gmap string pyval :=
  <["file_path" := PStr "src/cache/store.py"]>
    (<["path" := PInt 7]> (<["command" := PInt 5]> ∅)).

(** A tool input with a null [file_path] and a [path]. *)
Definition null_file_path_input : gmap string pyval :=
  <["file_path" := PNone]> (<["path" := PStr "tests/test_api.py"]> ∅).

(** *** The briefing in closed form *)

(** The rows the briefing shows: the first five the query answers with,
    none when the database is missing or the query fails. *)
Definition shown_unknowns (db : SessionStart.database)
  : list SessionStart.unknown_row :=
  match db with
  | SessionStart.Database (Some rows) _ => take 5 rows
  | _ => []
  end.

Definition shown_reviews (db : SessionStart.database)
  : list SessionStart.review_row :=
  match db with
  | SessionStart.Database _ (Some rows) => take 5 rows
  | _ => []
  end.

Definition unknown_bullet (py_repr : pyval -> string)
    (r : SessionStart.unknown_row) : string :=
  let '(concept_id, related_to, why_important, _) := r in
  ("- **" ++ CheckLearning.py_str py_repr concept_id ++ "** (from "
     ++ CheckLearning.py_str py_repr related_to ++ "): "
     ++ CheckLearning.py_str py_repr why_important)%string.

Definition review_bullet (py_repr : pyval -> string)
    (r : SessionStart.review_row) : string :=
  let '(concept_id, current_level) := r in
  ("- " ++ CheckLearning.py_str py_repr concept_id ++ " (Level "
     ++ CheckLearning.py_str py_repr current_level ++ ")")%string.

(** A section of the briefing: nothing when there is no item, else the
    title, one line per item and an empty line. *)
Definition briefing_section (title : string) (items : list string)
  : list string :=
  match items with
  | [] => []
  | _ :: _ => (title :: items ++ [""])%list
  end.

Definition briefing_lines (py_repr : pyval -> string)
    (unknowns : list SessionStart.unknown_row)
    (due : list SessionStart.review_row) : list string :=
  ([SessionStart.header; ""]
   ++ briefing_section SessionStart.unknowns_title
        (unknown_bullet py_repr <$> unknowns)
   ++ briefing_section SessionStart.due_title
        (review_bullet py_repr <$> due)
   ++ match unknowns, due with
      | [], [] => [SessionStart.no_pending; ""]
      | _, _ => []
      end)%list.

(** No text shown in a bullet holds a newline. *)
Definition single_line_rows (py_repr : pyval -> string)
    (db : SessionStart.database) : Prop :=
  Forall (fun r => newline_free (unknown_bullet py_repr r) = true)
    (shown_unknowns db) /\
  Forall (fun r => newline_free (review_bullet py_repr r) = true)
    (shown_reviews db).

Ltac world_fields :=
  cbn beta iota zeta delta
    [fst snd tracker_file dir_creatable file_writable stdout written
     set_file].

(** * Proofs *)

(** ** Reading and updating a stored tracker state *)

Section StateJson.

Variable st : TrackerState.

Lemma get_tool_count d :
  py_get (PDict (state_json st)) "tool_count" d = Ok (PInt (toolCount st)).
Proof. reflexivity. Qed.

Lemma get_last_learning_prompt d :
  py_get (PDict (state_json st)) "last_learning_prompt" d
  = Ok (PInt (lastLearningPromptAt st)).
Proof. reflexivity. Qed.

Lemma get_after_enabled d :
  py_get (PDict (state_json st)) "after_enabled" d
  = Ok (PBool (afterModeEnabled st)).
Proof. reflexivity. Qed.

Lemma get_concepts (d : gmap string pyval) v dflt :
  d !! "concepts" = Some v -> py_get (PDict d) "concepts" dflt = Ok v.
Proof. intros H. unfold py_get. by rewrite H. Qed.

Lemma state_json_concepts :
  state_json st !! "concepts" = Some (PList (PStr <$> recentConcepts st)).
Proof. reflexivity. Qed.

Lemma set_prompted now :
  <["last_learning_prompt" := PInt now]>
    (<["tool_count" := PInt 0]> (state_json st))
  = state_json (prompted now st).
Proof. reflexivity. Qed.

End StateJson.

Lemma state_json_default : state_json default_state = default_tracker.
Proof. reflexivity. Qed.

Lemma state_json_inj st1 st2 : state_json st1 = state_json st2 -> st1 = st2.
Proof.
  intros H.
  assert (Hk : forall k, state_json st1 !! k = state_json st2 !! k)
    by (intros k; by rewrite H).
  pose proof (Hk "tool_count") as H1.
  pose proof (Hk "last_learning_prompt") as H2.
  pose proof (Hk "senior_enabled") as H3.
  pose proof (Hk "after_enabled") as H4.
  pose proof (Hk "concepts") as H5.
  clear H Hk.
  change (Some (PInt (toolCount st1)) = Some (PInt (toolCount st2))) in H1.
  change (Some (PInt (lastLearningPromptAt st1))
          = Some (PInt (lastLearningPromptAt st2))) in H2.
  change (Some (PBool (seniorModeEnabled st1))
          = Some (PBool (seniorModeEnabled st2))) in H3.
  change (Some (PBool (afterModeEnabled st1))
          = Some (PBool (afterModeEnabled st2))) in H4.
  change (Some (PList (PStr <$> recentConcepts st1))
          = Some (PList (PStr <$> recentConcepts st2))) in H5.
  destruct st1, st2; simpl in *.
  injection H1 as ->. injection H2 as ->. injection H3 as ->.
  injection H4 as ->. injection H5 as H5.
  f_equal.
  revert recentConcepts1 H5.
  induction recentConcepts0 as [|a l IH]; intros [|b l'] E;
    simpl in E; try discriminate; [done|].
  injection E as -> E. f_equal. by apply IH.
Qed.

(** ** The Trigger Evaluator on a stored tracker state *)

Lemma last_fmap_PStr (cs : list string) :
  last (PStr <$> cs) = PStr <$> last cs.
Proof. apply fmap_last. Qed.

Lemma check_learning_load w :
  CheckLearning.load_tracker w = (Ret (loaded w), w).
Proof.
  unfold CheckLearning.load_tracker, loaded.
  by destruct (tracker_file w).
Qed.

Lemma track_activity_load w :
  TrackActivity.load_tracker w =
    if dir_creatable w then (Ret (loaded w), w) else (Raise OSError, w).
Proof.
  unfold TrackActivity.load_tracker, TrackActivity.ensure_dir, bind,
    makedirs, loaded.
  destruct (dir_creatable w); [|reflexivity].
  by destruct (tracker_file w).
Qed.

Lemma check_learning_on_state py_repr stdin now w st :
  holds w st ->
  CheckLearning.main py_repr stdin now w =
    if negb (afterModeEnabled st) || (toolCount st <? 3) then (SysExit 0, w)
    else if now - lastLearningPromptAt st <? 900000 then (SysExit 0, w)
    else if dir_creatable w && file_writable w
         then (SysExit 0,
               printed (CheckLearning.block_document
                          (CheckLearning.reason (conceptHint st)))
                       (wrote (PDict (state_json (prompted now st))) w))
         else (Raise OSError, w).
Proof.
  unfold holds. intros H.
  unfold CheckLearning.main, bind at 1.
  rewrite check_learning_load, H.
  unfold bind at 1. rewrite get_tool_count. unfold lift at 1.
  unfold bind at 1. rewrite get_last_learning_prompt. unfold lift at 1.
  unfold bind at 1. rewrite get_after_enabled. unfold lift at 1.
  unfold bind at 1, lift at 1.
  cbn [truthy py_lt_int py_num bindR].
  change CheckLearning.TOOL_THRESHOLD with 3.
  destruct (afterModeEnabled st); cbn [negb orb]; [|reflexivity].
  destruct (toolCount st <? 3); [reflexivity|].
  unfold bind at 1, lift at 1.
  cbn [py_int_sub py_num bindR].
  change CheckLearning.COOLDOWN_MS with 900000.
  destruct (now - lastLearningPromptAt st <? 900000); [reflexivity|].
  unfold bind at 1.
  rewrite (get_concepts _ _ _ (state_json_concepts st)). unfold lift at 1.
  assert (Hhint :
    (if truthy (PList (PStr <$> recentConcepts st))
     then py_last (PList (PStr <$> recentConcepts st))
     else Ok (PStr "the task you just completed"))
    = Ok (PStr (conceptHint st))).
  { unfold conceptHint, py_last. rewrite last_fmap_PStr.
    destruct (recentConcepts st) as [|c cs]; [reflexivity|].
    cbn [truthy fmap list_fmap].
    destruct (last (c :: cs)) eqn:E; [reflexivity|].
    apply last_None in E. discriminate E. }
  unfold bind at 1. rewrite Hhint. unfold lift at 1.
  unfold bind at 1, lift at 1. cbn [py_setitem].
  unfold bind at 1, lift at 1. cbn [py_setitem].
  rewrite set_prompted.
  unfold bind at 1, CheckLearning.save_tracker, bind at 1, makedirs.
  destruct (dir_creatable w) eqn:Hd; cbn [andb]; [|reflexivity].
  unfold write_file.
  destruct (file_writable w) eqn:Hw; [|reflexivity].
  unfold bind, print, sys_exit, printed, wrote.
  cbn [tracker_file dir_creatable file_writable written stdout
       CheckLearning.py_str].
  by rewrite Hd, Hw.
Qed.

(** ** The Activity Recorder on a stored tracker state *)

Lemma existsb_py_eq_str (c : string) (cs : list string) :
  existsb (fun v => py_eq_str v c) (PStr <$> cs) = bool_decide (c ∈ cs).
Proof.
  induction cs as [|a cs IH]; [reflexivity|].
  cbn [fmap list_fmap existsb py_eq_str]. rewrite IH.
  destruct (String.eqb_spec a c) as [->|Hne].
  - cbn [orb]. symmetry. apply bool_decide_eq_true. left.
  - cbn [orb]. apply bool_decide_ext. rewrite elem_of_cons.
    split; [by right|]. intros [E|E]; [by subst|exact E].
Qed.

Lemma set_counted_concepts st n cs :
  <["concepts" := PList (PStr <$> cs)]>
    (<["tool_count" := PInt n]> (state_json st))
  = state_json {| toolCount := n;
                  lastLearningPromptAt := lastLearningPromptAt st;
                  afterModeEnabled := afterModeEnabled st;
                  seniorModeEnabled := seniorModeEnabled st;
                  recentConcepts := cs |}.
Proof. reflexivity. Qed.

Lemma set_counted st n :
  <["tool_count" := PInt n]> (state_json st)
  = state_json {| toolCount := n;
                  lastLearningPromptAt := lastLearningPromptAt st;
                  afterModeEnabled := afterModeEnabled st;
                  seniorModeEnabled := seniorModeEnabled st;
                  recentConcepts := recentConcepts st |}.
Proof. reflexivity. Qed.

Lemma counted_concepts st n :
  <["tool_count" := PInt n]> (state_json st) !! "concepts"
  = Some (PList (PStr <$> recentConcepts st)).
Proof. reflexivity. Qed.

Lemma update_concepts_on_state st concept :
  TrackActivity.update_concepts
    (PDict (<["tool_count" := PInt (toolCount st + 1)]> (state_json st)))
    concept
  = Ok (PDict (state_json (recorded concept st))).
Proof.
  unfold TrackActivity.update_concepts, recorded.
  destruct concept as [c|]; [|by rewrite set_counted].
  cbn [truthy].
  destruct (String.eqb c ""); cbn [negb]; [by rewrite set_counted|].
  rewrite (get_concepts _ _ _ (counted_concepts st _)).
  cbn [bindR py_contains_str]. rewrite existsb_py_eq_str.
  unfold remember.
  destruct (bool_decide (c ∈ recentConcepts st));
    cbn [negb]; [by rewrite set_counted|].
  cbn [py_append bindR py_len].
  change [PStr c] with (PStr <$> [c]).
  rewrite <- fmap_app, length_fmap.
  destruct (10 <? length (recentConcepts st ++ [c]))%nat.
  - destruct (recentConcepts st ++ [c])%list as [|x xs] eqn:E.
    + by apply app_eq_nil in E as [_ ?].
    + cbn [fmap list_fmap py_pop0 bindR py_setitem tail].
      by rewrite set_counted_concepts.
  - cbn [bindR py_setitem]. by rewrite set_counted_concepts.
Qed.

Lemma track_activity_on_state data tool_name w st :
  holds w st ->
  py_get data "tool_name" (PStr "") = Ok tool_name ->
  py_in_strs tool_name TrackActivity.SIGNIFICANT_TOOLS = true ->
  TrackActivity.main (Some data) w =
    if dir_creatable w then
      match event_concept data tool_name with
      | Ok concept =>
          if file_writable w
          then (SysExit 0, wrote (PDict (state_json (recorded concept st))) w)
          else (Raise OSError, w)
      | Err e => (Raise e, w)
      end
    else (Raise OSError, w).
Proof.
  unfold holds. intros H Hname Hsig.
  unfold TrackActivity.main.
  unfold bind at 1. rewrite Hname. unfold lift at 1.
  rewrite Hsig. cbn [negb].
  unfold bind at 1. rewrite track_activity_load.
  destruct (dir_creatable w) eqn:Hd; [|reflexivity].
  rewrite H.
  unfold bind at 1. rewrite get_tool_count. unfold lift at 1.
  unfold bind at 1, lift at 1. cbn [py_add_int py_num bindR].
  unfold bind at 1, lift at 1. cbn [py_setitem].
  unfold event_concept.
  unfold bind at 1, lift at 1.
  destruct (py_get data "tool_input" (PDict ∅)) as [tool_input|e];
    cbn [bindR]; [|reflexivity].
  unfold bind at 1, lift at 1.
  destruct (TrackActivity.extract_concept tool_name tool_input)
    as [concept|e]; [|reflexivity].
  unfold bind at 1. rewrite update_concepts_on_state. unfold lift at 1.
  unfold bind at 1, TrackActivity.save_tracker, bind at 1,
    TrackActivity.ensure_dir, makedirs.
  rewrite Hd. unfold write_file.
  destruct (file_writable w) eqn:Hw; [|reflexivity].
  unfold sys_exit, wrote. by rewrite Hd, Hw.
Qed.

(** The exit status and the world the evaluator leaves, case by case. *)

Lemma evaluate_on_state py_repr stdin now w st :
  holds w st ->
  evaluate py_repr stdin now w =
    if negb (afterModeEnabled st) || (toolCount st <? 3) then (0, w)
    else if now - lastLearningPromptAt st <? 900000 then (0, w)
    else if dir_creatable w && file_writable w
         then (0,
               printed (CheckLearning.block_document
                          (CheckLearning.reason (conceptHint st)))
                       (wrote (PDict (state_json (prompted now st))) w))
         else (1, w).
Proof.
  intros H. unfold evaluate, run.
  rewrite (check_learning_on_state py_repr stdin now w st H).
  destruct (negb (afterModeEnabled st) || (toolCount st <? 3));
    [reflexivity|].
  destruct (now - lastLearningPromptAt st <? 900000); [reflexivity|].
  destruct (dir_creatable w && file_writable w); reflexivity.
Qed.

Lemma evaluate_block_on_state py_repr stdin now w st :
  holds w st ->
  dir_creatable w = true ->
  file_writable w = true ->
  afterModeEnabled st = true ->
  3 <= toolCount st ->
  900000 <= now - lastLearningPromptAt st ->
  evaluate py_repr stdin now w =
    (0, printed (CheckLearning.block_document
                   (CheckLearning.reason (conceptHint st)))
                (wrote (PDict (state_json (prompted now st))) w)).
Proof.
  intros H Hd Hw Ha Hc Ht.
  rewrite (evaluate_on_state _ _ _ _ _ H), Ha, Hd, Hw. cbn [negb orb andb].
  destruct (Z.ltb_spec (toolCount st) 3); [lia|].
  destruct (Z.ltb_spec (now - lastLearningPromptAt st) 900000); [lia|].
  reflexivity.
Qed.

(** ** Properties of the Trigger Evaluator *)


(** C2.  For a stored tracker state with at least 3 counted tools and less
    than 900,000 ms elapsed since the last prompt, the evaluator decides
    [Allow] and leaves the world as it found it: nothing is written and
    [toolCount] is not reset.  Hence an evaluation at a later time [now'],
    once the cooldown has expired, blocks at once (after mode enabled,
    state file writable) with no further event counted. *)
Theorem evaluate_allows_during_cooldown py_repr stdin now w st :
  holds w st ->
  3 <= toolCount st ->
  now - lastLearningPromptAt st < 900000 ->
  let r := evaluate py_repr stdin now w in
  decides w r Allow /\
  r.2 = w /\
  forall stdin' now',
    afterModeEnabled st = true ->
    dir_creatable w = true ->
    file_writable w = true ->
    900000 <= now' - lastLearningPromptAt st ->
    decides r.2 (evaluate py_repr stdin' now' r.2)
      (Block (CheckLearning.reason (conceptHint st))).
Proof.
  intros H Hc Ht r.
  assert (Hr : r = (0, w)).
  { subst r. rewrite (evaluate_on_state _ _ _ _ _ H).
    destruct (negb (afterModeEnabled st) || (toolCount st <? 3));
      [reflexivity|].
    destruct (Z.ltb_spec (now - lastLearningPromptAt st) 900000);
      [reflexivity|lia]. }
  rewrite Hr. cbn [fst snd].
  split; [split; [reflexivity|by rewrite app_nil_r]|].
  split; [reflexivity|].
  intros stdin' now' Ha Hd Hw Ht'.
  rewrite (evaluate_block_on_state _ _ _ _ _ H Hd Hw Ha Hc Ht').
  split; reflexivity.
Qed.

(** C9.  The evaluator never consults the event input: for any two
    contents of standard input, parseable or not, the same world (tracker
    file, filesystem condition) and the same clock reading, it ends the
    same way, leaves the same world, hence makes the same decision, prints
    the same prompt text and persists the same state. *)
Theorem evaluate_ignores_event_input py_repr stdin1 stdin2 now w :
  CheckLearning.main py_repr stdin1 now w
  = CheckLearning.main py_repr stdin2 now w
  /\ evaluate py_repr stdin1 now w = evaluate py_repr stdin2 now w
  /\ forall d, decides w (evaluate py_repr stdin1 now w) d
               <-> decides w (evaluate py_repr stdin2 now w) d.
Proof.
  assert (E : CheckLearning.main py_repr stdin1 now w
              = CheckLearning.main py_repr stdin2 now w) by reflexivity.
  split; [exact E|].
  assert (E' : evaluate py_repr stdin1 now w = evaluate py_repr stdin2 now w)
    by (unfold evaluate, run; by rewrite E).
  split; [exact E'|]. intros d. by rewrite E'.
Qed.

(** ** Properties of the Activity Recorder *)

Lemma recordEvent_on_state data tool_name w st :
  holds w st ->
  py_get data "tool_name" (PStr "") = Ok tool_name ->
  py_in_strs tool_name TrackActivity.SIGNIFICANT_TOOLS = true ->
  recordEvent (Some data) w =
    if dir_creatable w then
      match event_concept data tool_name with
      | Ok concept =>
          if file_writable w
          then (0, wrote (PDict (state_json (recorded concept st))) w)
          else (1, w)
      | Err e => (1, w)
      end
    else (1, w).
Proof.
  intros H Hn Hs. unfold recordEvent, run.
  rewrite (track_activity_on_state _ _ _ _ H Hn Hs).
  destruct (dir_creatable w); [|reflexivity].
  destruct (event_concept data tool_name); [|reflexivity].
  destruct (file_writable w); reflexivity.
Qed.

(** Whatever the event and the filesystem, the recorder leaves a stored
    tracker state as it is or replaces it by [recorded concept] of it. *)
Lemma recordEvent_file stdin w st :
  holds w st ->
  (recordEvent stdin w).2 = w \/
  exists concept,
    (recordEvent stdin w).2 = wrote (PDict (state_json (recorded concept st))) w.
Proof.
  intros H. destruct stdin as [data|]; [|by left].
  destruct (py_get data "tool_name" (PStr "")) as [tool_name|e] eqn:Hn.
  - destruct (py_in_strs tool_name TrackActivity.SIGNIFICANT_TOOLS) eqn:Hs.
    + rewrite (recordEvent_on_state _ _ _ _ H Hn Hs).
      destruct (dir_creatable w); [|by left].
      destruct (event_concept data tool_name) as [concept|]; [|by left].
      destruct (file_writable w); [|by left].
      right. by exists concept.
    + left. unfold recordEvent, run, TrackActivity.main, bind at 1.
      rewrite Hn. unfold lift. by rewrite Hs.
  - left. unfold recordEvent, run, TrackActivity.main, bind at 1.
    by rewrite Hn.
Qed.

Lemma remember_length c cs :
  (length cs <= 10)%nat -> (length (remember c cs) <= 10)%nat.
Proof.
  intros H. unfold remember.
  destruct (bool_decide (c ∈ cs)); [exact H|].
  destruct (Nat.ltb_spec 10 (length (cs ++ [c]))) as [Hlt|Hge];
    [|exact Hge].
  rewrite length_app in Hlt. cbn [length] in Hlt.
  destruct cs as [|x xs]; cbn [app tail length] in *; [lia|].
  rewrite length_app. cbn [length]. lia.
Qed.

Lemma remember_NoDup c cs : NoDup cs -> NoDup (remember c cs).
Proof.
  intros H. unfold remember.
  destruct (bool_decide_reflect (c ∈ cs)) as [Hin|Hnot]; [exact H|].
  assert (Hnd : NoDup (cs ++ [c])).
  { apply NoDup_app. split; [exact H|]. split.
    - intros x Hx Hx'. apply list_elem_of_singleton in Hx'. by subst.
    - apply NoDup_singleton. }
  destruct (10 <? length (cs ++ [c]))%nat; [|exact Hnd].
  destruct (cs ++ [c])%list as [|x xs]; [exact Hnd|].
  cbn [tail]. by apply NoDup_cons in Hnd as [_ ?].
Qed.

Lemma remember_present c cs : c ∈ cs -> remember c cs = cs.
Proof. intros H. unfold remember. by rewrite bool_decide_eq_true_2. Qed.

Lemma remember_evicts c oldest rest :
  c ∉ oldest :: rest ->
  length (oldest :: rest) = 10%nat ->
  remember c (oldest :: rest) = (rest ++ [c])%list.
Proof.
  intros Hnot Hlen. unfold remember.
  rewrite bool_decide_eq_false_2 by exact Hnot.
  rewrite length_app, Hlen. reflexivity.
Qed.

Lemma recorded_length concept st :
  (length (recentConcepts st) <= 10)%nat ->
  (length (recentConcepts (recorded concept st)) <= 10)%nat.
Proof.
  intros H. unfold recorded. cbn [recentConcepts].
  destruct concept as [c|]; [|exact H].
  destruct (String.eqb c ""); [exact H|]. by apply remember_length.
Qed.

Lemma recorded_NoDup concept st :
  NoDup (recentConcepts st) -> NoDup (recentConcepts (recorded concept st)).
Proof.
  intros H. unfold recorded. cbn [recentConcepts].
  destruct concept as [c|]; [|exact H].
  destruct (String.eqb c ""); [exact H|]. by apply remember_NoDup.
Qed.

(** Every topic [extract_concept] returns is one of the eight labels, so
    never the empty string. *)
Lemma scan_patterns_nonempty file_path c :
  TrackActivity.scan_patterns TrackActivity.patterns file_path = Ok (Some c) ->
  c <> "".
Proof.
  unfold TrackActivity.patterns. cbn [TrackActivity.scan_patterns].
  repeat (destruct (TrackActivity.scan_keywords _ file_path) as [[|]|];
          cbn [bindR];
          [intros [= <-]; discriminate| |discriminate]).
  discriminate.
Qed.

Lemma extract_concept_nonempty tool_name tool_input c :
  TrackActivity.extract_concept tool_name tool_input = Ok (Some c) -> c <> "".
Proof.
  unfold TrackActivity.extract_concept.
  destruct (py_get tool_input "file_path" (PStr "")) as [fp1|];
    cbn [bindR]; [|discriminate].
  destruct (if truthy fp1 then Ok fp1
            else py_get tool_input "path" (PStr "")) as [fp|];
    cbn [bindR]; [|discriminate].
  destruct (py_get tool_input "command" (PStr "")) as [command|];
    cbn [bindR]; [|discriminate].
  destruct (TrackActivity.scan_patterns TrackActivity.patterns fp)
    as [[c'|]|] eqn:E; cbn [bindR]; [| |discriminate].
  - intros [= <-]. by eapply scan_patterns_nonempty.
  - destruct (py_contains_str command "git") as [[|]|]; cbn [bindR];
      [intros [= <-]; discriminate| |discriminate].
    destruct (py_contains_str command "docker") as [[|]|]; cbn [bindR];
      [intros [= <-]; discriminate|discriminate|discriminate].
Qed.

Lemma event_concept_nonempty data tool_name c :
  event_concept data tool_name = Ok (Some c) -> String.eqb c "" = false.
Proof.
  unfold event_concept.
  destruct (py_get data "tool_input" (PDict ∅)) as [ti|]; cbn [bindR];
    [|discriminate].
  intros H. apply extract_concept_nonempty in H.
  by destruct (String.eqb_spec c "").
Qed.

Lemma holds_wrote st w : holds (wrote (PDict (state_json st)) w) st.
Proof. reflexivity. Qed.

(** C3.  From a stored tracker state whose [recentConcepts] has at most 10
    entries and no duplicate, the recorder, on any event input and any
    filesystem condition, leaves a stored state with the same two
    properties.  When the list is full (10 entries) and a significant event
    infers a topic not in it, the state written has the oldest entry
    (index 0) dropped and the new topic appended at the end. *)
Theorem recordEvent_keeps_recentConcepts_bounded_distinct stdin w st :
  holds w st ->
  (length (recentConcepts st) <= 10)%nat ->
  NoDup (recentConcepts st) ->
  (exists st',
     holds (recordEvent stdin w).2 st' /\
     (length (recentConcepts st') <= 10)%nat /\
     NoDup (recentConcepts st')) /\
  (forall data tool_name topic oldest rest,
     stdin = Some data ->
     py_get data "tool_name" (PStr "") = Ok tool_name ->
     py_in_strs tool_name TrackActivity.SIGNIFICANT_TOOLS = true ->
     event_concept data tool_name = Ok (Some topic) ->
     recentConcepts st = oldest :: rest ->
     length (oldest :: rest) = 10%nat ->
     topic ∉ oldest :: rest ->
     dir_creatable w = true ->
     file_writable w = true ->
     exists st',
       holds (recordEvent stdin w).2 st' /\
       recentConcepts st' = (rest ++ [topic])%list /\
       length (recentConcepts st') = 10%nat).
Proof.
  intros H Hlen Hnd. split.
  - destruct (recordEvent_file stdin w st H) as [->|[concept ->]].
    + by exists st.
    + exists (recorded concept st). split; [apply holds_wrote|].
      split; [by apply recorded_length|by apply recorded_NoDup].
  - intros data tool_name topic oldest rest -> Hn Hs Hc Hcs Hfull Hnew Hd Hw.
    rewrite (recordEvent_on_state _ _ _ _ H Hn Hs), Hd, Hc, Hw.
    exists (recorded (Some topic) st). split; [apply holds_wrote|].
    unfold recorded. cbn [recentConcepts].
    rewrite (event_concept_nonempty _ _ _ Hc), Hcs.
    rewrite (remember_evicts _ _ _ Hnew Hfull).
    split; [reflexivity|].
    rewrite length_app. cbn [length] in *. lia.
Qed.

(** C8.  For a significant event whose inferred topic is already in
    [recentConcepts], the recorder leaves the sequence as it is, same
    entries in the same order, whatever the filesystem condition; when the
    state file can be written the state persisted is the old one with only
    [toolCount] incremented. *)
Theorem recordEvent_known_topic_keeps_recentConcepts
    data tool_name topic w st :
  holds w st ->
  py_get data "tool_name" (PStr "") = Ok tool_name ->
  py_in_strs tool_name TrackActivity.SIGNIFICANT_TOOLS = true ->
  event_concept data tool_name = Ok (Some topic) ->
  topic ∈ recentConcepts st ->
  (exists st',
     holds (recordEvent (Some data) w).2 st' /\
     recentConcepts st' = recentConcepts st) /\
  (dir_creatable w = true ->
   file_writable w = true ->
   recordEvent (Some data) w =
     (0, wrote (PDict (state_json
                         {| toolCount := toolCount st + 1;
                            lastLearningPromptAt := lastLearningPromptAt st;
                            afterModeEnabled := afterModeEnabled st;
                            seniorModeEnabled := seniorModeEnabled st;
                            recentConcepts := recentConcepts st |})) w)).
Proof.
  intros H Hn Hs Hc Hin.
  assert (Hrec : recorded (Some topic) st =
                 {| toolCount := toolCount st + 1;
                    lastLearningPromptAt := lastLearningPromptAt st;
                    afterModeEnabled := afterModeEnabled st;
                    seniorModeEnabled := seniorModeEnabled st;
                    recentConcepts := recentConcepts st |}).
  { unfold recorded.
    by rewrite (event_concept_nonempty _ _ _ Hc), (remember_present _ _ Hin). }
  rewrite (recordEvent_on_state _ _ _ _ H Hn Hs), Hc, Hrec.
  split.
  - destruct (dir_creatable w); [|by exists st].
    destruct (file_writable w); [|by exists st].
    eexists. split; [apply holds_wrote|reflexivity].
  - by intros -> ->.
Qed.

Lemma py_in_strs_false (v : pyval) (strs : list string) :
  (forall s, s ∈ strs -> v <> PStr s) -> py_in_strs v strs = false.
Proof.
  intros H. unfold py_in_strs.
  induction strs as [|s strs IH]; [reflexivity|].
  cbn [existsb]. rewrite IH.
  - destruct v as [| | |s'| |]; try reflexivity.
    cbn [py_eq_str]. destruct (String.eqb_spec s' s) as [->|]; [|reflexivity].
    exfalso. apply (H s); [left|reflexivity].
  - intros s0 Hs0. apply H. by right.
Qed.

(** C6.  For an event object whose tool name (the empty string when the key
    is missing) is none of Edit, Write, Bash, and for every world, the
    recorder exits with status 0 and leaves the world exactly as it was:
    the tracker file is not read, no directory is created and nothing is
    written. *)
Theorem recordEvent_ignores_insignificant_tools
    (data : gmap string pyval) w :
  (forall s, s ∈ TrackActivity.SIGNIFICANT_TOOLS ->
             default (PStr "") (data !! "tool_name") <> PStr s) ->
  TrackActivity.main (Some (PDict data)) w = (SysExit 0, w) /\
  recordEvent (Some (PDict data)) w = (0, w) /\
  written (recordEvent (Some (PDict data)) w).2 = written w /\
  tracker_file (recordEvent (Some (PDict data)) w).2 = tracker_file w.
Proof.
  intros H.
  assert (E : TrackActivity.main (Some (PDict data)) w = (SysExit 0, w)).
  { unfold TrackActivity.main, bind at 1, lift at 1. cbn [py_get].
    by rewrite (py_in_strs_false _ _ H). }
  split; [exact E|].
  unfold recordEvent, run. rewrite E. by cbn [exit_status fst snd].
Qed.

(** ** Sequences of hook invocations *)

Lemma recordEvent_keeps_last_prompt stdin w st :
  holds w st ->
  exists st',
    holds (recordEvent stdin w).2 st' /\
    lastLearningPromptAt st' = lastLearningPromptAt st.
Proof.
  intros H. destruct (recordEvent_file stdin w st H) as [->|[concept ->]].
  - by exists st.
  - exists (recorded concept st). split; [apply holds_wrote|reflexivity].
Qed.

Lemma evaluate_advances_last_prompt py_repr stdin now w st :
  holds w st ->
  exists st',
    holds (evaluate py_repr stdin now w).2 st' /\
    (lastLearningPromptAt st' = lastLearningPromptAt st \/
     lastLearningPromptAt st' = now /\
     lastLearningPromptAt st + 900000 <= now).
Proof.
  intros H. rewrite (evaluate_on_state _ _ _ _ _ H).
  destruct (negb (afterModeEnabled st) || (toolCount st <? 3));
    [exists st; by split; [|left]|].
  destruct (Z.ltb_spec (now - lastLearningPromptAt st) 900000);
    [exists st; by split; [|left]|].
  destruct (dir_creatable w && file_writable w);
    [|exists st; by split; [|left]].
  exists (prompted now st). split; [reflexivity|].
  right. cbn [prompted lastLearningPromptAt]. lia.
Qed.

Lemma perform_monotone py_repr a w st :
  holds w st ->
  exists st',
    holds (perform py_repr a w) st' /\
    lastLearningPromptAt st <= lastLearningPromptAt st'.
Proof.
  intros H. destruct a as [stdin|stdin now|c wr]; cbn [perform].
  - destruct (recordEvent_keeps_last_prompt stdin w st H) as (st' & H' & E).
    exists st'. split; [exact H'|lia].
  - destruct (evaluate_advances_last_prompt py_repr stdin now w st H)
      as (st' & H' & [E|[E Hle]]); exists st'; (split; [exact H'|lia]).
  - by exists st.
Qed.

(** C7.  The persisted [lastLearningPromptAt] never decreases.  The
    recorder leaves it as it is; the evaluator leaves it as it is or
    replaces it by a [now] at least 900,000 ms above the stored value; so
    over every sequence of recorder and evaluator invocations (with the
    filesystem condition free to change in between) the value at the end is
    at least the value at the start. *)
Theorem lastLearningPromptAt_never_decreases :
  (forall stdin w st,
     holds w st ->
     exists st',
       holds (recordEvent stdin w).2 st' /\
       lastLearningPromptAt st' = lastLearningPromptAt st) /\
  (forall py_repr stdin now w st,
     holds w st ->
     exists st',
       holds (evaluate py_repr stdin now w).2 st' /\
       (lastLearningPromptAt st' = lastLearningPromptAt st \/
        lastLearningPromptAt st' = now /\
        lastLearningPromptAt st + 900000 <= now)) /\
  (forall py_repr acts w st,
     holds w st ->
     exists st',
       holds (perform_all py_repr acts w) st' /\
       lastLearningPromptAt st <= lastLearningPromptAt st').
Proof.
  split; [exact recordEvent_keeps_last_prompt|].
  split; [exact evaluate_advances_last_prompt|].
  intros py_repr acts. unfold perform_all.
  induction acts as [|a acts IH]; intros w st H.
  - exists st. split; [exact H|lia].
  - cbn [fold_left].
    destruct (perform_monotone py_repr a w st H) as (st1 & H1 & Hle1).
    destruct (IH _ _ H1) as (st2 & H2 & Hle2).
    exists st2. split; [exact H2|lia].
Qed.

(** ** Topic inference *)

Lemma scan_keywords_path keywords path :
  TrackActivity.scan_keywords keywords (PStr path)
  = Ok (existsb (fun kw => contains (str_lower kw) (str_lower path))
          keywords).
Proof.
  induction keywords as [|kw rest IH]; [reflexivity|].
  cbn [TrackActivity.scan_keywords py_lower bindR existsb].
  destruct (contains (str_lower kw) (str_lower path));
    [reflexivity|exact IH].
Qed.

Lemma scan_patterns_path rules path :
  TrackActivity.scan_patterns rules (PStr path)
  = Ok (match find (rule_matches path) rules with
        | Some rule => Some rule.2
        | None => None
        end).
Proof.
  induction rules as [|[keywords concept] rest IH]; [reflexivity|].
  cbn [TrackActivity.scan_patterns find].
  rewrite scan_keywords_path. cbn [bindR].
  unfold rule_matches at 1. cbn [fst].
  destruct (existsb _ keywords); [reflexivity|exact IH].
Qed.

Lemma extract_concept_path_command tool_name (tool_input : gmap string pyval)
    file_path path command :
  default (PStr "") (tool_input !! "file_path") = PStr file_path ->
  (file_path = "" ->
   default (PStr "") (tool_input !! "path") = PStr path) ->
  default (PStr "") (tool_input !! "command") = PStr command ->
  TrackActivity.extract_concept tool_name (PDict tool_input)
  = Ok (inferTopic (if String.eqb file_path "" then path else file_path)
                   command).
Proof.
  intros Hfp Hp Hc.
  unfold TrackActivity.extract_concept. cbn [py_get bindR].
  rewrite Hfp, Hc. cbn [truthy].
  assert (E : (if negb (String.eqb file_path "")
               then Ok (PStr file_path)
               else Ok (default (PStr "") (tool_input !! "path")))
              = Ok (PStr (if String.eqb file_path "" then path
                          else file_path))).
  { destruct (String.eqb_spec file_path "") as [Hempty|]; [|reflexivity].
    cbn [negb]. by rewrite (Hp Hempty). }
  rewrite E. cbn [bindR].
  change TrackActivity.patterns with topic_rules.
  rewrite scan_patterns_path. cbn [bindR]. unfold inferTopic.
  destruct (find _ topic_rules); [reflexivity|].
  cbn [py_contains_str bindR].
  destruct (contains "git" command); [reflexivity|].
  cbn [bindR]. by destruct (contains "docker" command).
Qed.

Lemma find_first_match {A} (f : A -> bool) (before : list A) x after :
  (forall y, y ∈ before -> f y = false) ->
  f x = true ->
  find f (before ++ x :: after) = Some x.
Proof.
  intros Hb Hx. induction before as [|y before IH]; cbn [app find].
  - by rewrite Hx.
  - rewrite (Hb y) by left. apply IH. intros z Hz. apply Hb. by right.
Qed.

Lemma find_no_match {A} (f : A -> bool) (l : list A) :
  (forall y, y ∈ l -> f y = false) -> find f l = None.
Proof.
  intros Hnone. induction l as [|y l IH]; [reflexivity|].
  cbn [find]. rewrite (Hnone y) by left. apply IH. intros z Hz.
  apply Hnone. by right.
Qed.

Lemma find_agree {A} (f g : A -> bool) (l : list A) :
  (forall y, y ∈ l -> f y = g y) -> find f l = find g l.
Proof.
  intros Hfg. induction l as [|y l IH]; [reflexivity|].
  cbn [find]. rewrite (Hfg y) by left.
  destruct (g y); [reflexivity|]. apply IH. intros z Hz. apply Hfg.
  by right.
Qed.

Lemma existsb_agree {A} (f g : A -> bool) (l : list A) :
  (forall y, y ∈ l -> f y = g y) -> existsb f l = existsb g l.
Proof.
  intros Hfg. induction l as [|y l IH]; [reflexivity|].
  cbn [existsb]. rewrite (Hfg y) by left. f_equal. apply IH.
  intros z Hz. apply Hfg. by right.
Qed.

(** *** Letter case on ASCII text *)

Lemma all_ascii_complete (a : ascii) : In a all_ascii.
Proof.
  unfold all_ascii. rewrite <- (ascii_nat_embedding a).
  apply in_map, in_seq. pose proof (nat_ascii_bounded a). lia.
Qed.

Lemma same_letter_fold (a b : ascii) :
  same_letter a b = Ascii.eqb (ascii_lower a) (ascii_lower b).
Proof.
  assert (Hall :
    forallb (fun x =>
      forallb (fun y =>
        Bool.eqb (same_letter x y)
                 (Ascii.eqb (ascii_lower x) (ascii_lower y)))
        all_ascii) all_ascii = true) by (vm_compute; reflexivity).
  rewrite forallb_forall in Hall.
  specialize (Hall a (all_ascii_complete a)).
  rewrite forallb_forall in Hall.
  specialize (Hall b (all_ascii_complete b)).
  by apply Bool.eqb_prop in Hall.
Qed.

Lemma caseless_prefix_fold (s1 s2 : string) :
  caseless_prefix s1 s2 = String.prefix (lower s1) (lower s2).
Proof.
  revert s2. induction s1 as [|a r1 IH]; intros [|b r2];
    cbn [caseless_prefix lower String.prefix]; try reflexivity.
  rewrite same_letter_fold, IH.
  destruct (ascii_dec (ascii_lower a) (ascii_lower b)) as [E|E].
  - by rewrite E, Ascii.eqb_refl.
  - apply Ascii.eqb_neq in E. by rewrite E.
Qed.

Lemma caseless_contains_fold (needle hay : string) :
  caseless_contains needle hay = contains (lower needle) (lower hay).
Proof.
  induction hay as [|c r IH];
    cbn [caseless_contains contains lower].
  - change EmptyString with (lower EmptyString) at 2.
    rewrite <- caseless_prefix_fold. by destruct (caseless_prefix needle "").
  - change (String (ascii_lower c) (lower r)) with (lower (String c r)).
    rewrite <- caseless_prefix_fold, IH.
    reflexivity.
Qed.

Lemma rule_matches_caseless path (rule : list string * string) :
  is_ascii path = true ->
  forallb is_ascii rule.1 = true ->
  rule_matches path rule
  = existsb (fun kw => caseless_contains kw path) rule.1.
Proof.
  intros Hpath Hkws. unfold rule_matches.
  apply existsb_agree. intros kw Hkw.
  rewrite forallb_forall in Hkws.
  rewrite (str_lower_ascii kw)
    by (apply Hkws; by apply list_elem_of_In).
  rewrite (str_lower_ascii path Hpath).
  symmetry. apply caseless_contains_fold.
Qed.

Lemma topic_rules_ascii (rule : list string * string) :
  rule ∈ topic_rules -> forallb is_ascii rule.1 = true.
Proof.
  intros Hin. apply list_elem_of_In in Hin. cbn in Hin.
  repeat (destruct Hin as [<-|Hin]; [reflexivity|]). destruct Hin.
Qed.

Lemma inferTopic_ascii path command :
  is_ascii path = true ->
  inferTopic path command = inferTopic_caseless path command.
Proof.
  intros Hpath. unfold inferTopic, inferTopic_caseless.
  rewrite (find_agree (rule_matches path)
             (fun rule => existsb (fun kw => caseless_contains kw path)
                            rule.1) topic_rules); [reflexivity|].
  intros rule Hin. apply rule_matches_caseless; [exact Hpath|].
  by apply topic_rules_ascii.
Qed.

Lemma extract_concept_path_only tool_name path :
  path <> "" ->
  TrackActivity.extract_concept tool_name
    (PDict (<["file_path" := PStr path]> ∅))
  = Ok (inferTopic path "").
Proof.
  intros Hne.
  rewrite (extract_concept_path_command tool_name
             (<["file_path" := PStr path]> ∅) path "" "").
  - by destruct (String.eqb_spec path "").
  - by rewrite lookup_insert_eq.
  - intros E. by destruct Hne.
  - by rewrite lookup_insert_ne.
Qed.

(** C4.  [extract_concept] is the first-match evaluation of the ordered
    rule list against the path, letter case ignored: on a tool input whose
    path and command are strings it returns [inferTopic] of them; the
    topic is that of the first rule, in declaration order, one of whose
    keywords occurs in the path; the command is looked at ([git] before
    [docker]) only when no rule matches the path.  On an ASCII path the
    match of a keyword is its occurrence in the path letter by letter,
    capitals and small letters taken as equal.  The path
    "src/api/routes/user.tsx" yields "api-design" although the
    {.tsx, .jsx} rule matches it too, and so does the same path in
    capitals. *)
Theorem extract_concept_first_match :
  (forall tool_name (tool_input : gmap string pyval) file_path path command,
     default (PStr "") (tool_input !! "file_path") = PStr file_path ->
     (file_path = "" ->
      default (PStr "") (tool_input !! "path") = PStr path) ->
     default (PStr "") (tool_input !! "command") = PStr command ->
     TrackActivity.extract_concept tool_name (PDict tool_input)
     = Ok (inferTopic (if String.eqb file_path "" then path else file_path)
                      command)) /\
  (forall path command before rule after,
     TrackActivity.patterns = (before ++ rule :: after)%list ->
     (forall earlier, earlier ∈ before -> rule_matches path earlier = false) ->
     rule_matches path rule = true ->
     inferTopic path command = Some rule.2) /\
  (forall path command,
     (forall rule, rule ∈ TrackActivity.patterns ->
                   rule_matches path rule = false) ->
     inferTopic path command =
       if contains "git" command then Some "git-workflow"
       else if contains "docker" command then Some "containerization"
            else None) /\
  (forall path command,
     is_ascii path = true ->
     inferTopic path command = inferTopic_caseless path command) /\
  (forall tool_name,
     TrackActivity.extract_concept tool_name
       (PDict (<["file_path" := PStr "src/api/routes/user.tsx"]> ∅))
     = Ok (Some "api-design")) /\
  (forall tool_name,
     TrackActivity.extract_concept tool_name
       (PDict (<["file_path" := PStr "SRC/API/Routes/User.TSX"]> ∅))
     = Ok (Some "api-design")) /\
  rule_matches "src/api/routes/user.tsx"
    ([".tsx"; ".jsx"], "react-components") = true.
Proof.
  split; [exact extract_concept_path_command|].
  split.
  { intros path command before rule after Hrules Hbefore Hrule.
    unfold inferTopic. change topic_rules with TrackActivity.patterns.
    rewrite Hrules. by rewrite (find_first_match _ _ _ _ Hbefore Hrule). }
  split.
  { intros path command Hnone. unfold inferTopic.
    change topic_rules with TrackActivity.patterns.
    by rewrite (find_no_match _ _ Hnone). }
  split; [exact inferTopic_ascii|].
  split.
  { intros tool_name.
    rewrite (extract_concept_path_only tool_name "src/api/routes/user.tsx")
      by discriminate.
    rewrite inferTopic_ascii by reflexivity. by vm_compute. }
  split.
  { intros tool_name.
    rewrite (extract_concept_path_only tool_name "SRC/API/Routes/User.TSX")
      by discriminate.
    rewrite inferTopic_ascii by reflexivity. by vm_compute. }
  rewrite rule_matches_caseless by reflexivity. by vm_compute.
Qed.

(** ** Tracker objects with missing fields *)

Lemma default_with_defaults (d : gmap string pyval) key v :
  field_defaults !! key = Some v ->
  default v (with_defaults d !! key) = default v (d !! key).
Proof.
  intros H. unfold with_defaults. rewrite lookup_union, H.
  by destruct (d !! key).
Qed.

Lemma with_defaults_insert (d : gmap string pyval) key v :
  with_defaults (<[key := v]> d) = <[key := v]> (with_defaults d).
Proof. unfold with_defaults. symmetry. apply insert_union_l. Qed.

Lemma check_learning_with_defaults py_repr stdin now w d :
  tracker_file w = Content (PDict d) ->
  agree_up_to_defaults
    (CheckLearning.main py_repr stdin now w)
    (CheckLearning.main py_repr stdin now
       (set_file (Content (PDict (with_defaults d))) w)).
Proof.
  intros H. unfold agree_up_to_defaults.
  unfold CheckLearning.main.
  cbv [bind lift CheckLearning.load_tracker py_get py_setitem
       CheckLearning.save_tracker makedirs write_file print sys_exit].
  world_fields. rewrite H.
  rewrite (default_with_defaults d "tool_count" (PInt 0) eq_refl).
  rewrite (default_with_defaults d "last_learning_prompt" (PInt 0) eq_refl).
  rewrite (default_with_defaults d "after_enabled" (PBool true) eq_refl).
  rewrite (default_with_defaults d "concepts" (PList []) eq_refl).
  assert (Hsame : (Content (PDict d) = tracker_file w) ->
                  fill_file (tracker_file w)
                  = Content (PDict (with_defaults d)))
    by (by intros <-).
  specialize (Hsame (eq_sym H)).
  destruct (if negb (truthy (default (PBool true) (d !! "after_enabled")))
            then Ok true
            else py_lt_int (default (PInt 0) (d !! "tool_count"))
                   CheckLearning.TOOL_THRESHOLD) as [[|]|e];
    world_fields; [by rewrite Hsame| |by rewrite Hsame].
  destruct (py_int_sub now (default (PInt 0) (d !! "last_learning_prompt")))
    as [elapsed|e]; world_fields; [|by rewrite Hsame].
  destruct (elapsed <? CheckLearning.COOLDOWN_MS);
    world_fields; [by rewrite Hsame|].
  destruct (if truthy (default (PList []) (d !! "concepts"))
            then py_last (default (PList []) (d !! "concepts"))
            else Ok (PStr "the task you just completed")) as [hint|e];
    world_fields; [|by rewrite Hsame].
  destruct (dir_creatable w); world_fields; [|by rewrite Hsame].
  destruct (file_writable w); world_fields; [|by rewrite Hsame].
  cbn [fill_file fill_val]. by rewrite !with_defaults_insert.
Qed.

Lemma update_concepts_with_defaults d concept :
  TrackActivity.update_concepts (PDict (with_defaults d)) concept
  = match TrackActivity.update_concepts (PDict d) concept with
    | Ok v => Ok (fill_val v)
    | Err e => Err e
    end.
Proof.
  unfold TrackActivity.update_concepts.
  destruct concept as [c|]; [|reflexivity].
  destruct (truthy (PStr c)); [|reflexivity].
  cbn [py_get bindR].
  rewrite (default_with_defaults d "concepts" (PList []) eq_refl).
  destruct (py_contains_str (default (PList []) (d !! "concepts")) c)
    as [[|]|e]; cbn [bindR negb]; [reflexivity| |reflexivity].
  destruct (py_append (default (PList []) (d !! "concepts")) (PStr c))
    as [appended|e]; cbn [bindR]; [|reflexivity].
  destruct (py_len appended) as [n|e]; cbn [bindR]; [|reflexivity].
  destruct (if (10 <? n)%nat then py_pop0 appended else Ok appended)
    as [concepts|e]; cbn [bindR py_setitem fill_val]; [|reflexivity].
  by rewrite with_defaults_insert.
Qed.

Lemma bind_lift {A B} (r : result A) (k : A -> M B) w :
  bind (lift r) k w = match r with
                      | Ok a => k a w
                      | Err e => (Raise e, w)
                      end.
Proof. by destruct r. Qed.

Lemma track_activity_save tracker w :
  bind (TrackActivity.save_tracker tracker) (fun _ => @sys_exit unit 0) w =
    if dir_creatable w && file_writable w
    then (SysExit 0, wrote tracker w)
    else (Raise OSError, w).
Proof.
  unfold bind, TrackActivity.save_tracker, TrackActivity.ensure_dir, bind,
    makedirs, write_file, sys_exit, wrote.
  destruct (dir_creatable w) eqn:Hd; [|reflexivity].
  cbv beta iota zeta.
  destruct (file_writable w) eqn:Hw; [|reflexivity].
  cbn [andb]. by rewrite Hd.
Qed.

Lemma track_activity_bind_load {B} (k : pyval -> M B) w :
  bind TrackActivity.load_tracker k w =
    if dir_creatable w then k (loaded w) w else (Raise OSError, w).
Proof.
  unfold bind at 1. rewrite track_activity_load.
  by destruct (dir_creatable w).
Qed.

Lemma track_activity_with_defaults stdin w d :
  tracker_file w = Content (PDict d) ->
  agree_up_to_defaults
    (TrackActivity.main stdin w)
    (TrackActivity.main stdin
       (set_file (Content (PDict (with_defaults d))) w)).
Proof.
  intros H.
  assert (Hsame : fill_file (tracker_file w)
                  = Content (PDict (with_defaults d))) by (by rewrite H).
  set (w' := set_file (Content (PDict (with_defaults d))) w).
  assert (Hquiet : forall o : outcome unit,
            agree_up_to_defaults (o, w) (o, w')).
  { intros o. unfold agree_up_to_defaults. cbn [fst snd]. by rewrite Hsame. }
  unfold TrackActivity.main.
  destruct stdin as [data|]; [|apply Hquiet].
  rewrite !bind_lift.
  destruct (py_get data "tool_name" (PStr "")) as [tool_name|e];
    [|apply Hquiet].
  destruct (negb (py_in_strs tool_name TrackActivity.SIGNIFICANT_TOOLS));
    [apply Hquiet|].
  rewrite !track_activity_bind_load.
  change (dir_creatable w') with (dir_creatable w).
  destruct (dir_creatable w) eqn:Hd; [|apply Hquiet].
  change (loaded w') with (PDict (with_defaults d)).
  replace (loaded w) with (PDict d) by (unfold loaded; by rewrite H).
  rewrite !bind_lift. cbn [py_get].
  rewrite (default_with_defaults d "tool_count" (PInt 0) eq_refl).
  rewrite !bind_lift.
  destruct (py_add_int (default (PInt 0) (d !! "tool_count")) 1)
    as [count|e]; [|apply Hquiet].
  rewrite !bind_lift. cbn [py_setitem].
  rewrite !bind_lift.
  destruct (py_get data "tool_input" (PDict ∅)) as [tool_input|e];
    [|apply Hquiet].
  rewrite !bind_lift.
  destruct (TrackActivity.extract_concept tool_name tool_input)
    as [concept|e]; [|apply Hquiet].
  rewrite !bind_lift.
  rewrite <- with_defaults_insert, update_concepts_with_defaults.
  destruct (TrackActivity.update_concepts
              (PDict (<["tool_count" := count]> d)) concept)
    as [tracker|e]; [|apply Hquiet].
  rewrite !track_activity_save.
  change (dir_creatable w') with (dir_creatable w).
  change (file_writable w') with (file_writable w).
  destruct (dir_creatable w && file_writable w); [|apply Hquiet].
  unfold agree_up_to_defaults. cbn [fst snd wrote tracker_file stdout].
  split; [reflexivity|]. split; [reflexivity|].
  by destruct tracker.
Qed.

Lemma with_defaults_present (d : gmap string pyval) key v :
  d !! key = Some v -> with_defaults d !! key = Some v.
Proof.
  intros H. unfold with_defaults. rewrite lookup_union, H.
  by destruct (field_defaults !! key).
Qed.

Lemma with_defaults_missing (d : gmap string pyval) key :
  d !! key = None -> with_defaults d !! key = field_defaults !! key.
Proof.
  intros H. unfold with_defaults. rewrite lookup_union, H.
  by destruct (field_defaults !! key).
Qed.

(** ** Exit status *)

Lemma string_field_default d key :
  string_field d key -> exists s, default (PStr "") (d !! key) = PStr s.
Proof.
  unfold string_field.
  destruct (d !! key) as [[| | |s| |]|]; try contradiction; intros _.
  - by exists s.
  - by exists "".
Qed.

Lemma event_concept_well_formed data tool_name :
  well_formed_event data ->
  exists concept, event_concept (PDict data) tool_name = Ok concept.
Proof.
  unfold well_formed_event, event_concept. cbn [py_get bindR].
  destruct (data !! "tool_input") as [[| | | | |tool_input]|];
    try contradiction.
  - intros (Hfp & Hp & Hc). cbn [default].
    destruct (string_field_default _ _ Hfp) as [fp Efp].
    destruct (string_field_default _ _ Hp) as [p Ep].
    destruct (string_field_default _ _ Hc) as [c Ec].
    eexists.
    exact (extract_concept_path_command tool_name tool_input fp p c
             Efp (fun _ => Ep) Ec).
  - intros _. cbn [default]. eexists.
    exact (extract_concept_path_command tool_name ∅ "" "" ""
             eq_refl (fun _ => eq_refl) eq_refl).
Qed.

(** C5, amended.  Unparseable event input ends the recorder silently with
    status 0, and an absent or unreadable state file is read as the default
    state.  On an event object as the host sends it, a stored tracker state
    and a filesystem where the state directory can be created and the state
    file written, the recorder exits with status 0; on any event input, the
    evaluator does under the same conditions. *)
Theorem hooks_exit_0_when_state_writable :
  (forall w, TrackActivity.main None w = (SysExit 0, w)) /\
  (forall w,
     tracker_file w = Absent \/ tracker_file w = Corrupt ->
     holds w default_state) /\
  (forall data w st,
     well_formed_event data ->
     holds w st ->
     dir_creatable w = true ->
     file_writable w = true ->
     (recordEvent (Some (PDict data)) w).1 = 0) /\
  (forall py_repr stdin now w st,
     holds w st ->
     dir_creatable w = true ->
     file_writable w = true ->
     (evaluate py_repr stdin now w).1 = 0).
Proof.
  split; [reflexivity|].
  split.
  { intros w H. unfold holds, loaded. by destruct H as [-> | ->]. }
  split.
  - intros data w st Hev H Hd Hw.
    destruct (py_in_strs (default (PStr "") (data !! "tool_name"))
                TrackActivity.SIGNIFICANT_TOOLS) eqn:Hs.
    + rewrite (recordEvent_on_state (PDict data) _ _ _ H eq_refl Hs), Hd, Hw.
      by destruct (event_concept_well_formed data
                     (default (PStr "") (data !! "tool_name")) Hev)
        as [concept ->].
    + unfold recordEvent, run, TrackActivity.main.
      rewrite bind_lift. cbn [py_get]. by rewrite Hs.
  - intros py_repr stdin now w st H Hd Hw.
    rewrite (evaluate_on_state _ _ _ _ _ H), Hd, Hw. cbn [andb].
    destruct (negb (afterModeEnabled st) || (toolCount st <? 3));
      [reflexivity|].
    by destruct (now - lastLearningPromptAt st <? 900000).
Qed.

(** * Further properties of the hooks *)

(** ** The evaluator on any tracker object *)

Lemma check_learning_bind_load {B} (k : pyval -> M B) w :
  bind CheckLearning.load_tracker k w = k (loaded w) w.
Proof. unfold bind at 1. by rewrite check_learning_load. Qed.

Lemma check_learning_save_print tracker doc w :
  bind (CheckLearning.save_tracker tracker)
       (fun _ => bind (print doc) (fun _ => @sys_exit unit 0)) w =
    if dir_creatable w && file_writable w
    then (SysExit 0, printed doc (wrote tracker w))
    else (Raise OSError, w).
Proof.
  unfold bind, CheckLearning.save_tracker, bind, makedirs, write_file,
    print, sys_exit, printed, wrote.
  destruct (dir_creatable w) eqn:Hd; [|reflexivity].
  cbv beta iota zeta.
  destruct (file_writable w) eqn:Hw; [|reflexivity].
  cbn [andb tracker_file dir_creatable file_writable written stdout].
  by rewrite Hd.
Qed.

(** The evaluator on a tracker object, branch by branch. *)
Lemma check_learning_on_object py_repr stdin now w (d : gmap string pyval) :
  loaded w = PDict d ->
  CheckLearning.main py_repr stdin now w =
    match (if negb (truthy (default (PBool true) (d !! "after_enabled")))
           then Ok true
           else py_lt_int (default (PInt 0) (d !! "tool_count")) 3) with
    | Err e => (Raise e, w)
    | Ok true => (SysExit 0, w)
    | Ok false =>
        match py_int_sub now
                (default (PInt 0) (d !! "last_learning_prompt")) with
        | Err e => (Raise e, w)
        | Ok elapsed =>
            if elapsed <? 900000 then (SysExit 0, w)
            else
              match (if truthy (default (PList []) (d !! "concepts"))
                     then py_last (default (PList []) (d !! "concepts"))
                     else Ok (PStr "the task you just completed")) with
              | Err e => (Raise e, w)
              | Ok hint =>
                  if dir_creatable w && file_writable w
                  then (SysExit 0,
                        printed (CheckLearning.block_document
                                   (CheckLearning.reason
                                      (CheckLearning.py_str py_repr hint)))
                          (wrote (PDict
                                    (<["last_learning_prompt" := PInt now]>
                                       (<["tool_count" := PInt 0]> d))) w))
                  else (Raise OSError, w)
              end
        end
    end.
Proof.
  intros H. unfold CheckLearning.main.
  rewrite check_learning_bind_load, H.
  rewrite !bind_lift. cbn [py_get].
  rewrite !bind_lift.
  change CheckLearning.TOOL_THRESHOLD with 3.
  destruct (if negb (truthy (default (PBool true) (d !! "after_enabled")))
            then Ok true
            else py_lt_int (default (PInt 0) (d !! "tool_count")) 3)
    as [[|]|e]; [reflexivity| |reflexivity].
  rewrite bind_lift.
  destruct (py_int_sub now (default (PInt 0) (d !! "last_learning_prompt")))
    as [elapsed|e]; [|reflexivity].
  change CheckLearning.COOLDOWN_MS with 900000.
  destruct (elapsed <? 900000); [reflexivity|].
  rewrite !bind_lift.
  destruct (if truthy (default (PList []) (d !! "concepts"))
            then py_last (default (PList []) (d !! "concepts"))
            else Ok (PStr "the task you just completed")) as [hint|e];
    [|reflexivity].
  rewrite !bind_lift. cbn [py_setitem]. rewrite !bind_lift.
  apply check_learning_save_print.
Qed.

Lemma check_learning_not_object py_repr stdin now w :
  (forall d, loaded w <> PDict d) ->
  CheckLearning.main py_repr stdin now w = (Raise AttributeError, w).
Proof.
  intros H. unfold CheckLearning.main.
  rewrite check_learning_bind_load, bind_lift.
  destruct (loaded w) as [| | | | |d]; try reflexivity.
  by destruct (H d).
Qed.

(** X1.  Below the threshold, or with the after mode off, the evaluator
    allows whatever the clock and the filesystem condition: it exits with
    status 0, prints nothing and leaves the world as it found it. *)
Theorem evaluate_allows_below_threshold py_repr stdin now w st :
  holds w st ->
  afterModeEnabled st = false \/ toolCount st < 3 ->
  evaluate py_repr stdin now w = (0, w) /\
  decides w (evaluate py_repr stdin now w) Allow.
Proof.
  intros H Hq.
  assert (E : evaluate py_repr stdin now w = (0, w)).
  { rewrite (evaluate_on_state _ _ _ _ _ H).
    destruct Hq as [-> | Hlt]; [reflexivity|].
    destruct (Z.ltb_spec (toolCount st) 3); [|lia].
    by rewrite orb_true_r. }
  rewrite E. split; [reflexivity|].
  split; [reflexivity|]. cbn [snd]. by rewrite app_nil_r.
Qed.

(** X2.  The after mode is tested first: on a tracker object whose
    [after_enabled] is falsy the evaluator exits with status 0 and an
    untouched world whatever the other fields hold, ill-typed values
    included; with a truthy (or missing) [after_enabled], a [tool_count]
    that is not a number ends it with the exception of the comparison. *)
Theorem evaluate_tests_after_mode_first
    py_repr stdin now w (d : gmap string pyval) :
  loaded w = PDict d ->
  (truthy (default (PBool true) (d !! "after_enabled")) = false ->
   CheckLearning.main py_repr stdin now w = (SysExit 0, w)) /\
  (forall e,
     truthy (default (PBool true) (d !! "after_enabled")) = true ->
     py_num (default (PInt 0) (d !! "tool_count")) = Err e ->
     CheckLearning.main py_repr stdin now w = (Raise e, w)).
Proof.
  intros H. rewrite (check_learning_on_object _ _ _ _ _ H). split.
  - by intros ->.
  - intros e -> He. unfold py_lt_int. by rewrite He.
Qed.

(** X3.  On every input the evaluator either leaves the world untouched
    or exits with status 0 after one write and one printed block document;
    the object written is the one loaded with [tool_count] set to 0 and
    [last_learning_prompt] set to [now], every other key, known or not,
    keeping its value. *)
Theorem evaluate_writes_two_fields_or_nothing py_repr stdin now w :
  (CheckLearning.main py_repr stdin now w).2 = w \/
  exists (d d' : gmap string pyval) promptText,
    loaded w = PDict d /\
    CheckLearning.main py_repr stdin now w =
      (SysExit 0,
       printed (CheckLearning.block_document promptText)
         (wrote (PDict d') w)) /\
    d' !! "tool_count" = Some (PInt 0) /\
    d' !! "last_learning_prompt" = Some (PInt now) /\
    forall key,
      key <> "tool_count" -> key <> "last_learning_prompt" ->
      d' !! key = d !! key.
Proof.
  destruct (loaded w) as [| | | | |d] eqn:H;
    try (left; rewrite check_learning_not_object; [reflexivity|];
         intros d'; rewrite H; discriminate).
  rewrite (check_learning_on_object _ _ _ _ _ H).
  destruct (if negb (truthy (default (PBool true) (d !! "after_enabled")))
            then Ok true
            else py_lt_int (default (PInt 0) (d !! "tool_count")) 3)
    as [[|]|e]; [by left| |by left].
  destruct (py_int_sub now (default (PInt 0) (d !! "last_learning_prompt")))
    as [elapsed|e]; [|by left].
  destruct (elapsed <? 900000); [by left|].
  destruct (if truthy (default (PList []) (d !! "concepts"))
            then py_last (default (PList []) (d !! "concepts"))
            else Ok (PStr "the task you just completed")) as [hint|e];
    [|by left].
  destruct (dir_creatable w && file_writable w); [|by left].
  right. eexists d, _, _. split; [reflexivity|]. split; [reflexivity|].
  split; [|split].
  - rewrite lookup_insert_ne by done. apply lookup_insert_eq.
  - apply lookup_insert_eq.
  - intros key H1 H2. by rewrite !lookup_insert_ne.
Qed.

(** ** The recorder on any tracker object *)

Lemma update_concepts_frame (d : gmap string pyval) concept v :
  TrackActivity.update_concepts (PDict d) concept = Ok v ->
  exists d' : gmap string pyval,
    v = PDict d' /\
    forall key, key <> "concepts" -> d' !! key = d !! key.
Proof.
  unfold TrackActivity.update_concepts.
  destruct concept as [c|]; [|intros [= <-]; by exists d].
  destruct (truthy (PStr c)); [|intros [= <-]; by exists d].
  cbn [py_get bindR].
  destruct (py_contains_str (default (PList []) (d !! "concepts")) c)
    as [[|]|e]; cbn [bindR negb];
    [intros [= <-]; by exists d| |discriminate].
  destruct (py_append (default (PList []) (d !! "concepts")) (PStr c))
    as [appended|e]; cbn [bindR]; [|discriminate].
  destruct (py_len appended) as [n|e]; cbn [bindR]; [|discriminate].
  destruct (if (10 <? n)%nat then py_pop0 appended else Ok appended)
    as [concepts|e]; cbn [bindR py_setitem]; [|discriminate].
  intros [= <-]. eexists. split; [reflexivity|].
  intros key Hkey. by rewrite lookup_insert_ne.
Qed.

(** The recorder on a significant event and a tracker object, branch by
    branch. *)
Lemma track_activity_on_object data tool_name w (d : gmap string pyval) :
  loaded w = PDict d ->
  py_get data "tool_name" (PStr "") = Ok tool_name ->
  py_in_strs tool_name TrackActivity.SIGNIFICANT_TOOLS = true ->
  TrackActivity.main (Some data) w =
    if dir_creatable w then
      match py_add_int (default (PInt 0) (d !! "tool_count")) 1 with
      | Err e => (Raise e, w)
      | Ok count =>
          match event_concept data tool_name with
          | Err e => (Raise e, w)
          | Ok concept =>
              match TrackActivity.update_concepts
                      (PDict (<["tool_count" := count]> d)) concept with
              | Err e => (Raise e, w)
              | Ok tracker =>
                  if file_writable w then (SysExit 0, wrote tracker w)
                  else (Raise OSError, w)
              end
          end
      end
    else (Raise OSError, w).
Proof.
  intros H Hn Hs. unfold TrackActivity.main.
  rewrite bind_lift, Hn, Hs. cbn [negb].
  rewrite track_activity_bind_load.
  destruct (dir_creatable w) eqn:Hd; [|reflexivity].
  rewrite H, !bind_lift. cbn [py_get]. rewrite !bind_lift.
  destruct (py_add_int (default (PInt 0) (d !! "tool_count")) 1)
    as [count|e]; [|reflexivity].
  rewrite !bind_lift. cbn [py_setitem]. rewrite !bind_lift.
  unfold event_concept.
  destruct (py_get data "tool_input" (PDict ∅)) as [tool_input|e];
    cbn [bindR]; [|reflexivity].
  rewrite !bind_lift.
  destruct (TrackActivity.extract_concept tool_name tool_input)
    as [concept|e]; [|reflexivity].
  rewrite !bind_lift.
  destruct (TrackActivity.update_concepts
              (PDict (<["tool_count" := count]> d)) concept)
    as [tracker|e]; [|reflexivity].
  rewrite track_activity_save, Hd. cbn [andb].
  by destruct (file_writable w).
Qed.

(** Every way the recorder can end, as far as the world goes. *)
Lemma track_activity_cases stdin w :
  TrackActivity.main stdin w = (SysExit 0, w) \/
  (exists e, TrackActivity.main stdin w = (Raise e, w)) \/
  exists data tool_name,
    stdin = Some data /\
    py_get data "tool_name" (PStr "") = Ok tool_name /\
    py_in_strs tool_name TrackActivity.SIGNIFICANT_TOOLS = true.
Proof.
  destruct stdin as [data|]; [|by left].
  destruct (py_get data "tool_name" (PStr "")) as [tool_name|e] eqn:Hn.
  - destruct (py_in_strs tool_name TrackActivity.SIGNIFICANT_TOOLS) eqn:Hs.
    + right. right. by exists data, tool_name.
    + left. unfold TrackActivity.main. by rewrite bind_lift, Hn, Hs.
  - right. left. exists e. unfold TrackActivity.main.
    by rewrite bind_lift, Hn.
Qed.

Lemma track_activity_not_object data tool_name w :
  py_get data "tool_name" (PStr "") = Ok tool_name ->
  py_in_strs tool_name TrackActivity.SIGNIFICANT_TOOLS = true ->
  (forall d, loaded w <> PDict d) ->
  exists e, TrackActivity.main (Some data) w = (Raise e, w).
Proof.
  intros Hn Hs H. unfold TrackActivity.main.
  rewrite bind_lift, Hn, Hs. cbn [negb].
  rewrite track_activity_bind_load.
  destruct (dir_creatable w); [|by eexists].
  rewrite bind_lift.
  destruct (loaded w) as [| | | | |d]; try (by eexists).
  by destruct (H d).
Qed.

(** The update of the recency list on a tracker object, in closed form. *)
Lemma update_concepts_on_object (d : gmap string pyval) concept :
  TrackActivity.update_concepts (PDict d) concept =
    match concept with
    | None => Ok (PDict d)
    | Some c =>
        if String.eqb c "" then Ok (PDict d)
        else
          match default (PList []) (d !! "concepts") with
          | PList l =>
              if existsb (fun v => py_eq_str v c) l then Ok (PDict d)
              else
                Ok (PDict
                      (<["concepts" :=
                           PList (if (10 <? length (l ++ [PStr c]))%nat
                                  then tail (l ++ [PStr c])
                                  else l ++ [PStr c])]> d))
          | PStr s =>
              if contains c s then Ok (PDict d) else Err AttributeError
          | PDict m =>
              match m !! c with
              | Some _ => Ok (PDict d)
              | None => Err AttributeError
              end
          | _ => Err TypeError
          end
    end.
Proof.
  unfold TrackActivity.update_concepts.
  destruct concept as [c|]; [|reflexivity].
  cbn [truthy]. destruct (String.eqb c ""); [reflexivity|].
  cbn [negb py_get bindR].
  destruct (default (PList []) (d !! "concepts")) as [| | |s|l|m];
    cbn [py_contains_str bindR]; try reflexivity.
  - by destruct (contains c s).
  - destruct (existsb (fun v => py_eq_str v c) l); [reflexivity|].
    cbn [negb py_append bindR py_len].
    destruct (10 <? length (l ++ [PStr c]))%nat; [|reflexivity].
    destruct (l ++ [PStr c])%list as [|x xs] eqn:E; [|reflexivity].
    by apply app_eq_nil in E as [_ ?].
  - by destruct (m !! c).
Qed.

(** C10.  On a tracker file holding a JSON object, each hook reads each
    field where it uses it, as the value stored or, when the key is
    missing, its own default ([tool_count] 0, [last_learning_prompt] 0,
    [after_enabled] true, [concepts] [[]]), and goes on with the fields
    that are there: the run of either hook is given branch by branch in
    terms of these reads.  Hence each hook behaves as on the same object
    with every missing field set to its default: same outcome, same output,
    and the same file once the fields still missing are given these
    defaults.  The default record as a whole is what a hook loads when the
    file is absent or cannot be read; a file holding a document is loaded
    as it is. *)
Theorem missing_fields_default_at_point_of_use :
  (forall py_repr stdin now w d,
     tracker_file w = Content (PDict d) ->
     agree_up_to_defaults
       (CheckLearning.main py_repr stdin now w)
       (CheckLearning.main py_repr stdin now
          (set_file (Content (PDict (with_defaults d))) w))) /\
  (forall stdin w d,
     tracker_file w = Content (PDict d) ->
     agree_up_to_defaults
       (TrackActivity.main stdin w)
       (TrackActivity.main stdin
          (set_file (Content (PDict (with_defaults d))) w))) /\
  (forall (d : gmap string pyval) key v,
     d !! key = Some v -> with_defaults d !! key = Some v) /\
  (forall d : gmap string pyval,
     (d !! "tool_count" = None ->
      with_defaults d !! "tool_count" = Some (PInt 0)) /\
     (d !! "last_learning_prompt" = None ->
      with_defaults d !! "last_learning_prompt" = Some (PInt 0)) /\
     (d !! "after_enabled" = None ->
      with_defaults d !! "after_enabled" = Some (PBool true)) /\
     (d !! "concepts" = None ->
      with_defaults d !! "concepts" = Some (PList []))) /\
  (forall w v,
     tracker_file w = Content v ->
     CheckLearning.load_tracker w = (Ret v, w) /\
     (dir_creatable w = true -> TrackActivity.load_tracker w = (Ret v, w))) /\
  (forall w,
     tracker_file w = Absent \/ tracker_file w = Corrupt ->
     CheckLearning.load_tracker w = (Ret (PDict default_tracker), w) /\
     (dir_creatable w = true ->
      TrackActivity.load_tracker w = (Ret (PDict default_tracker), w))) /\
  (forall py_repr stdin now w (d : gmap string pyval),
     tracker_file w = Content (PDict d) ->
     CheckLearning.main py_repr stdin now w =
       match (if negb (truthy (default (PBool true) (d !! "after_enabled")))
              then Ok true
              else py_lt_int (default (PInt 0) (d !! "tool_count")) 3) with
       | Err e => (Raise e, w)
       | Ok true => (SysExit 0, w)
       | Ok false =>
           match py_int_sub now
                   (default (PInt 0) (d !! "last_learning_prompt")) with
           | Err e => (Raise e, w)
           | Ok elapsed =>
               if elapsed <? 900000 then (SysExit 0, w)
               else
                 match (if truthy (default (PList []) (d !! "concepts"))
                        then py_last (default (PList []) (d !! "concepts"))
                        else Ok (PStr "the task you just completed")) with
                 | Err e => (Raise e, w)
                 | Ok hint =>
                     if dir_creatable w && file_writable w
                     then (SysExit 0,
                           printed
                             (CheckLearning.block_document
                                (CheckLearning.reason
                                   (CheckLearning.py_str py_repr hint)))
                             (wrote
                                (PDict
                                   (<["last_learning_prompt" := PInt now]>
                                      (<["tool_count" := PInt 0]> d))) w))
                     else (Raise OSError, w)
                 end
           end
       end) /\
  (forall data tool_name w (d : gmap string pyval),
     tracker_file w = Content (PDict d) ->
     py_get data "tool_name" (PStr "") = Ok tool_name ->
     py_in_strs tool_name TrackActivity.SIGNIFICANT_TOOLS = true ->
     TrackActivity.main (Some data) w =
       if dir_creatable w then
         match py_add_int (default (PInt 0) (d !! "tool_count")) 1 with
         | Err e => (Raise e, w)
         | Ok count =>
             match event_concept data tool_name with
             | Err e => (Raise e, w)
             | Ok concept =>
                 match TrackActivity.update_concepts
                         (PDict (<["tool_count" := count]> d)) concept with
                 | Err e => (Raise e, w)
                 | Ok tracker =>
                     if file_writable w then (SysExit 0, wrote tracker w)
                     else (Raise OSError, w)
                 end
             end
         end
       else (Raise OSError, w)) /\
  (forall (d : gmap string pyval) concept,
     TrackActivity.update_concepts (PDict d) concept =
       match concept with
       | None => Ok (PDict d)
       | Some c =>
           if String.eqb c "" then Ok (PDict d)
           else
             match default (PList []) (d !! "concepts") with
             | PList l =>
                 if existsb (fun v => py_eq_str v c) l then Ok (PDict d)
                 else
                   Ok (PDict
                         (<["concepts" :=
                              PList (if (10 <? length (l ++ [PStr c]))%nat
                                     then tail (l ++ [PStr c])
                                     else l ++ [PStr c])]> d))
             | PStr s =>
                 if contains c s then Ok (PDict d) else Err AttributeError
             | PDict m =>
                 match m !! c with
                 | Some _ => Ok (PDict d)
                 | None => Err AttributeError
                 end
             | _ => Err TypeError
             end
       end).
Proof.
  split; [exact check_learning_with_defaults|].
  split; [exact track_activity_with_defaults|].
  split; [exact with_defaults_present|].
  split.
  { intros d. repeat split; intros Hmiss;
      by rewrite (with_defaults_missing _ _ Hmiss). }
  split.
  { intros w v Hfile. rewrite check_learning_load, track_activity_load.
    unfold loaded. rewrite Hfile. split; [reflexivity|]. by intros ->. }
  split.
  { intros w Hfile. rewrite check_learning_load, track_activity_load.
    unfold loaded.
    destruct Hfile as [-> | ->]; (split; [reflexivity|]); by intros ->. }
  split.
  { intros py_repr stdin now w d Hfile.
    apply check_learning_on_object. unfold loaded. by rewrite Hfile. }
  split.
  { intros data tool_name w d Hfile.
    apply track_activity_on_object. unfold loaded. by rewrite Hfile. }
  exact update_concepts_on_object.
Qed.

(** X4.  On every input the recorder prints nothing, and either leaves
    the world untouched or exits with status 0 after one write; the object
    written is the one loaded with [tool_count] incremented by one and, at
    most, [concepts] changed: every other key, known or not, keeps its
    value. *)
Theorem recordEvent_writes_two_fields_or_nothing stdin w :
  stdout (TrackActivity.main stdin w).2 = stdout w /\
  ((TrackActivity.main stdin w).2 = w \/
   exists (d d' : gmap string pyval) count,
     loaded w = PDict d /\
     TrackActivity.main stdin w = (SysExit 0, wrote (PDict d') w) /\
     py_add_int (default (PInt 0) (d !! "tool_count")) 1 = Ok count /\
     d' !! "tool_count" = Some count /\
     forall key,
       key <> "tool_count" -> key <> "concepts" -> d' !! key = d !! key).
Proof.
  assert (Hmain :
    (TrackActivity.main stdin w).2 = w \/
    exists (d d' : gmap string pyval) count,
      loaded w = PDict d /\
      TrackActivity.main stdin w = (SysExit 0, wrote (PDict d') w) /\
      py_add_int (default (PInt 0) (d !! "tool_count")) 1 = Ok count /\
      d' !! "tool_count" = Some count /\
      forall key,
        key <> "tool_count" -> key <> "concepts" -> d' !! key = d !! key).
  { destruct (track_activity_cases stdin w)
      as [E|[[e E]|(data & tool_name & -> & Hn & Hs)]];
      [left; by rewrite E|left; by rewrite E|].
    destruct (loaded w) as [| | | | |d] eqn:H;
      try (destruct (track_activity_not_object data tool_name w Hn Hs)
             as [e E];
           [intros d'; rewrite H; discriminate|left; by rewrite E]).
    rewrite (track_activity_on_object _ _ _ _ H Hn Hs).
    destruct (dir_creatable w); [|by left].
    destruct (py_add_int (default (PInt 0) (d !! "tool_count")) 1)
      as [count|e] eqn:Hc; [|by left].
    destruct (event_concept data tool_name) as [concept|e]; [|by left].
    destruct (TrackActivity.update_concepts
                (PDict (<["tool_count" := count]> d)) concept)
      as [tracker|e] eqn:Hu; [|by left].
    destruct (file_writable w); [|by left].
    right.
    destruct (update_concepts_frame _ _ _ Hu) as (d' & -> & Hframe).
    exists d, d', count. split; [reflexivity|]. split; [reflexivity|].
    split; [exact Hc|]. split.
    - rewrite Hframe by done. apply lookup_insert_eq.
    - intros key H1 H2. rewrite Hframe by done. by rewrite lookup_insert_ne. }
  split; [|exact Hmain].
  destruct Hmain as [->|(d & d' & count & _ & -> & _)]; reflexivity.
Qed.

(** ** Counting and remembering *)

Lemma remember_new_last c cs : c ∉ cs -> last (remember c cs) = Some c.
Proof.
  intros Hnew. unfold remember.
  rewrite bool_decide_eq_false_2 by exact Hnew.
  destruct (10 <? length (cs ++ [c]))%nat eqn:Hlen;
    [|apply last_snoc].
  destruct cs as [|x xs]; [discriminate Hlen|].
  cbn [app tail]. apply last_snoc.
Qed.

Lemma remember_cases c cs :
  remember c cs = cs \/ ((c ∉ cs) /\ last (remember c cs) = Some c).
Proof.
  destruct (decide (c ∈ cs)) as [Hin|Hnew].
  - left. by apply remember_present.
  - right. split; [exact Hnew|by apply remember_new_last].
Qed.

(** X5.  A significant, well-formed event recorded on a stored tracker
    state, with the state file writable, is counted exactly once: the state
    written has [toolCount] one higher, the prompt time and the two mode
    switches unchanged, and a recency list that is the old one or ends with
    a topic that was not in it. *)
Theorem recordEvent_counts_one (data : gmap string pyval) w st :
  holds w st ->
  well_formed_event data ->
  py_in_strs (default (PStr "") (data !! "tool_name"))
    TrackActivity.SIGNIFICANT_TOOLS = true ->
  dir_creatable w = true ->
  file_writable w = true ->
  exists st',
    recordEvent (Some (PDict data)) w
    = (0, wrote (PDict (state_json st')) w) /\
    toolCount st' = toolCount st + 1 /\
    lastLearningPromptAt st' = lastLearningPromptAt st /\
    afterModeEnabled st' = afterModeEnabled st /\
    seniorModeEnabled st' = seniorModeEnabled st /\
    (recentConcepts st' = recentConcepts st \/
     exists topic,
       (topic ∉ recentConcepts st) /\
       last (recentConcepts st') = Some topic).
Proof.
  intros H Hev Hs Hd Hw.
  destruct (event_concept_well_formed data
              (default (PStr "") (data !! "tool_name")) Hev)
    as [concept Hc].
  exists (recorded concept st).
  rewrite (recordEvent_on_state (PDict data) _ _ _ H eq_refl Hs), Hd, Hc, Hw.
  repeat (split; [reflexivity|]).
  unfold recorded. cbn [recentConcepts].
  destruct concept as [c|]; [|by left].
  destruct (String.eqb c ""); [by left|].
  destruct (remember_cases c (recentConcepts st)) as [->|[Hnew Hlast]];
    [by left|].
  right. by exists c.
Qed.


(** X7.  The recorder creates the state directory before it reads
    anything: on a significant event, when the directory cannot be
    created, it ends with [OSError] and an untouched world, whatever the
    tracker file and the tool input hold. *)
Theorem recordEvent_needs_state_directory data tool_name w :
  py_get data "tool_name" (PStr "") = Ok tool_name ->
  py_in_strs tool_name TrackActivity.SIGNIFICANT_TOOLS = true ->
  dir_creatable w = false ->
  TrackActivity.main (Some data) w = (Raise OSError, w) /\
  recordEvent (Some data) w = (1, w).
Proof.
  intros Hn Hs Hd.
  assert (E : TrackActivity.main (Some data) w = (Raise OSError, w)).
  { unfold TrackActivity.main.
    rewrite bind_lift, Hn, Hs. cbn [negb].
    by rewrite track_activity_bind_load, Hd. }
  split; [exact E|]. unfold recordEvent, run. by rewrite E.
Qed.

(** X8.  With no readable tracker file (absent, or not JSON) the evaluator
    allows and creates nothing, and the recorder, on a significant
    well-formed event with the state writable, starts from the default
    record: the file written holds a count of 1, no prompt time, both
    switches on and the inferred topic if any.  What an unreadable file
    held is replaced. *)
Theorem first_run_starts_from_defaults
    py_repr stdin now (data : gmap string pyval) w :
  tracker_file w = Absent \/ tracker_file w = Corrupt ->
  evaluate py_repr stdin now w = (0, w) /\
  (well_formed_event data ->
   py_in_strs (default (PStr "") (data !! "tool_name"))
     TrackActivity.SIGNIFICANT_TOOLS = true ->
   dir_creatable w = true ->
   file_writable w = true ->
   exists concept,
     event_concept (PDict data) (default (PStr "") (data !! "tool_name"))
     = Ok concept /\
     recordEvent (Some (PDict data)) w =
       (0, wrote (PDict (state_json
                           {| toolCount := 1;
                              lastLearningPromptAt := 0;
                              afterModeEnabled := true;
                              seniorModeEnabled := true;
                              recentConcepts :=
                                match concept with
                                | Some topic => [topic]
                                | None => []
                                end |})) w)).
Proof.
  intros Hfile.
  assert (H : holds w default_state).
  { unfold holds, loaded. by destruct Hfile as [-> | ->]. }
  split.
  - by rewrite (evaluate_on_state _ _ _ _ _ H).
  - intros Hev Hs Hd Hw.
    destruct (event_concept_well_formed data
                (default (PStr "") (data !! "tool_name")) Hev)
      as [concept Hc].
    exists concept. split; [exact Hc|].
    rewrite (recordEvent_on_state (PDict data) _ _ _ H eq_refl Hs),
      Hd, Hc, Hw.
    do 3 f_equal. unfold recorded, default_state.
    cbn [toolCount lastLearningPromptAt afterModeEnabled seniorModeEnabled
         recentConcepts].
    destruct concept as [topic|]; [|reflexivity].
    by rewrite (event_concept_nonempty _ _ _ Hc).
Qed.

(** ** The topics the recorder can store *)

Lemma scan_patterns_label rules file_path c :
  TrackActivity.scan_patterns rules file_path = Ok (Some c) ->
  c ∈ rules.*2.
Proof.
  induction rules as [|[keywords concept] rest IH];
    cbn [TrackActivity.scan_patterns]; [discriminate|].
  destruct (TrackActivity.scan_keywords keywords file_path) as [[|]|e];
    cbn [bindR]; [| |discriminate].
  - intros [= <-]. cbn [fmap list_fmap snd]. left.
  - intros H. cbn [fmap list_fmap]. right. by apply IH.
Qed.

Lemma extract_concept_label tool_name tool_input c :
  TrackActivity.extract_concept tool_name tool_input = Ok (Some c) ->
  c ∈ topic_labels.
Proof.
  unfold TrackActivity.extract_concept.
  destruct (py_get tool_input "file_path" (PStr "")) as [fp1|];
    cbn [bindR]; [|discriminate].
  destruct (if truthy fp1 then Ok fp1
            else py_get tool_input "path" (PStr "")) as [fp|];
    cbn [bindR]; [|discriminate].
  destruct (py_get tool_input "command" (PStr "")) as [command|];
    cbn [bindR]; [|discriminate].
  destruct (TrackActivity.scan_patterns TrackActivity.patterns fp)
    as [[c'|]|] eqn:E; cbn [bindR]; [| |discriminate].
  - intros [= <-]. apply scan_patterns_label in E.
    change topic_labels
      with (TrackActivity.patterns.*2
            ++ ["git-workflow"; "containerization"])%list.
    apply elem_of_app. by left.
  - destruct (py_contains_str command "git") as [[|]|]; cbn [bindR];
      [intros [= <-]| |discriminate].
    + unfold topic_labels. do 6 right. left.
    + destruct (py_contains_str command "docker") as [[|]|]; cbn [bindR];
        [intros [= <-]|discriminate|discriminate].
      unfold topic_labels. do 7 right. left.
Qed.

Lemma event_concept_label data tool_name c :
  event_concept data tool_name = Ok (Some c) -> c ∈ topic_labels.
Proof.
  unfold event_concept.
  destruct (py_get data "tool_input" (PDict ∅)) as [ti|]; cbn [bindR];
    [|discriminate].
  apply extract_concept_label.
Qed.

(** X9.  Whatever the tool input, a topic [extract_concept] returns is one
    of eight labels: the six topics of the path rules, [git-workflow] and
    [containerization]. *)
Theorem extract_concept_returns_a_label tool_name tool_input c :
  TrackActivity.extract_concept tool_name tool_input = Ok (Some c) ->
  c ∈ topic_labels /\ c <> "".
Proof.
  intros H. split; [by eapply extract_concept_label|].
  by eapply extract_concept_nonempty.
Qed.

(** X10.  When a path rule matches a non-empty [file_path], the topic is
    that of the first matching rule whatever the [path] and [command]
    fields hold: neither is looked at, so an ill-typed command raises
    nothing.  When no rule matches, a command that is not a string, list
    or object makes [extract_concept] raise. *)
Theorem path_match_shadows_command
    tool_name (tool_input : gmap string pyval) file_path :
  tool_input !! "file_path" = Some (PStr file_path) ->
  file_path <> "" ->
  (forall rule,
     find (rule_matches file_path) TrackActivity.patterns = Some rule ->
     TrackActivity.extract_concept tool_name (PDict tool_input)
     = Ok (Some rule.2)) /\
  (forall e,
     find (rule_matches file_path) TrackActivity.patterns = None ->
     py_contains_str (default (PStr "") (tool_input !! "command")) "git"
     = Err e ->
     TrackActivity.extract_concept tool_name (PDict tool_input) = Err e).
Proof.
  intros Hfp Hne.
  assert (Htrue : truthy (PStr file_path) = true).
  { cbn [truthy]. by destruct (String.eqb_spec file_path ""). }
  split.
  - intros rule Hfind. unfold TrackActivity.extract_concept.
    cbn [py_get bindR]. rewrite Hfp. cbn [default from_option id].
    rewrite Htrue.
    cbn [bindR]. rewrite scan_patterns_path, Hfind. reflexivity.
  - intros e Hfind Hcmd. unfold TrackActivity.extract_concept.
    cbn [py_get bindR]. rewrite Hfp. cbn [default from_option id].
    rewrite Htrue.
    cbn [bindR]. rewrite scan_patterns_path, Hfind. cbn [bindR].
    by rewrite Hcmd.
Qed.

(** X11.  A falsy [file_path] (null, 0, false, the empty string, an empty
    list or object) counts as missing: the result is that of the same tool
    input without the key, so the [path] field is used in its place. *)
Theorem falsy_file_path_falls_back_to_path
    tool_name (tool_input : gmap string pyval) v :
  tool_input !! "file_path" = Some v ->
  truthy v = false ->
  TrackActivity.extract_concept tool_name (PDict tool_input)
  = TrackActivity.extract_concept tool_name
      (PDict (delete "file_path" tool_input)).
Proof.
  intros Hfp Hfalsy. unfold TrackActivity.extract_concept.
  cbn [py_get bindR].
  rewrite Hfp, lookup_delete_eq. cbn [default from_option id].
  rewrite Hfalsy. cbn [truthy String.eqb negb].
  by rewrite !lookup_delete_ne.
Qed.

(** ** Invariants over sequences of invocations *)

(** What one recorder invocation does to a stored state, with the topic it
    inferred. *)
Lemma recordEvent_step stdin w st :
  holds w st ->
  (recordEvent stdin w).2 = w \/
  exists data tool_name concept,
    stdin = Some data /\
    event_concept data tool_name = Ok concept /\
    (recordEvent stdin w).2
    = wrote (PDict (state_json (recorded concept st))) w.
Proof.
  intros H.
  destruct (track_activity_cases stdin w)
    as [E|[[e E]|(data & tool_name & -> & Hn & Hs)]];
    [left; unfold recordEvent, run; by rewrite E
    |left; unfold recordEvent, run; by rewrite E|].
  rewrite (recordEvent_on_state _ _ _ _ H Hn Hs).
  destruct (dir_creatable w); [|by left].
  destruct (event_concept data tool_name) as [concept|] eqn:Hc; [|by left].
  destruct (file_writable w); [|by left].
  right. by exists data, tool_name, concept.
Qed.

(** What one evaluator invocation does to a stored state. *)
Lemma evaluate_step py_repr stdin now w st :
  holds w st ->
  evaluate py_repr stdin now w = (0, w) \/
  evaluate py_repr stdin now w = (1, w) \/
  (3 <= toolCount st /\
   900000 <= now - lastLearningPromptAt st /\
   holds (evaluate py_repr stdin now w).2 (prompted now st)).
Proof.
  intros H. rewrite (evaluate_on_state _ _ _ _ _ H).
  destruct (negb (afterModeEnabled st)); cbn [orb]; [by left|].
  destruct (Z.ltb_spec (toolCount st) 3); [by left|].
  destruct (Z.ltb_spec (now - lastLearningPromptAt st) 900000); [by left|].
  destruct (dir_creatable w && file_writable w); [|right; by left].
  right. right. repeat split; assumption.
Qed.

Lemma labelled_length st :
  labelled st -> (length (recentConcepts st) <= 8)%nat.
Proof.
  intros [Hnd Hsub].
  change 8%nat with (length topic_labels).
  apply submseteq_length. by apply NoDup_submseteq.
Qed.

Lemma remember_label_appends c cs :
  NoDup cs ->
  (forall x, x ∈ cs -> x ∈ topic_labels) ->
  c ∈ topic_labels ->
  remember c cs = cs \/ remember c cs = (cs ++ [c])%list.
Proof.
  intros Hnd Hsub Hc. unfold remember.
  destruct (bool_decide_reflect (c ∈ cs)) as [Hin|Hnew]; [by left|].
  right.
  assert (Hlen : (length (cs ++ [c]) <= 8)%nat).
  { change 8%nat with (length topic_labels).
    apply submseteq_length, NoDup_submseteq.
    - apply NoDup_app. split; [exact Hnd|]. split.
      + intros x Hx Hx'. apply list_elem_of_singleton in Hx'. by subst.
      + apply NoDup_singleton.
    - intros x Hx. apply elem_of_app in Hx as [Hx|Hx]; [by apply Hsub|].
      apply list_elem_of_singleton in Hx. by subst. }
  destruct (Nat.ltb_spec 10 (length (cs ++ [c]))); [lia|reflexivity].
Qed.

Lemma recorded_labelled concept st :
  labelled st ->
  (forall c, concept = Some c -> c ∈ topic_labels) ->
  labelled (recorded concept st) /\
  recentConcepts st `prefix_of` recentConcepts (recorded concept st).
Proof.
  intros [Hnd Hsub] Hc. unfold labelled, recorded. cbn [recentConcepts].
  destruct concept as [c|]; [|done].
  destruct (String.eqb c ""); [done|].
  destruct (remember_label_appends c (recentConcepts st) Hnd Hsub
              (Hc c eq_refl)) as [E|E].
  - rewrite E. done.
  - split; [split|].
    + by apply remember_NoDup.
    + rewrite E. intros x Hx.
      apply elem_of_app in Hx as [Hx|Hx]; [by apply Hsub|].
      apply list_elem_of_singleton in Hx. subst. by apply Hc.
    + rewrite E. by apply prefix_app_r.
Qed.

Lemma perform_labelled py_repr a w st :
  holds w st ->
  labelled st ->
  exists st',
    holds (perform py_repr a w) st' /\
    labelled st' /\
    recentConcepts st `prefix_of` recentConcepts st'.
Proof.
  intros H Hl. destruct a as [stdin|stdin now|c wr]; cbn [perform].
  - destruct (recordEvent_step stdin w st H)
      as [->|(data & tool_name & concept & _ & Hc & ->)];
      [by exists st|].
    exists (recorded concept st). split; [apply holds_wrote|].
    apply recorded_labelled; [exact Hl|].
    intros c ->. by eapply event_concept_label.
  - destruct (evaluate_step py_repr stdin now w st H)
      as [->|[->|(_ & _ & H')]]; [by exists st|by exists st|].
    exists (prompted now st). split; [exact H'|]. by split.
  - by exists st.
Qed.

(** X12.  Starting from a recency list of distinct labels (the empty list
    of the default record, for one), over every sequence of recorder and
    evaluator invocations the list only grows at its end: it stays made of
    distinct labels, never holds more than 8 entries, and keeps the
    entries it had, in order, as a prefix.  The eviction of the oldest
    entry is never reached. *)
Theorem recentConcepts_only_grows py_repr acts w st :
  holds w st ->
  labelled st ->
  exists st',
    holds (perform_all py_repr acts w) st' /\
    labelled st' /\
    (length (recentConcepts st') <= 8)%nat /\
    recentConcepts st `prefix_of` recentConcepts st'.
Proof.
  unfold perform_all. revert w st.
  induction acts as [|a acts IH]; intros w st H Hl.
  - exists st. split; [exact H|]. split; [exact Hl|].
    split; [by apply labelled_length|done].
  - cbn [fold_left].
    destruct (perform_labelled py_repr a w st H Hl) as (st1 & H1 & Hl1 & Hp1).
    destruct (IH _ _ H1 Hl1) as (st2 & H2 & Hl2 & Hlen & Hp2).
    exists st2. repeat (split; [assumption|]). by etrans.
Qed.

Lemma perform_count py_repr a w st :
  holds w st ->
  0 <= toolCount st ->
  exists st',
    holds (perform py_repr a w) st' /\
    0 <= toolCount st' /\
    toolCount st' <= toolCount st + Z.of_nat (recorder_calls [a]).
Proof.
  intros H H0. destruct a as [stdin|stdin now|c wr];
    cbn [perform recorder_calls].
  - destruct (recordEvent_step stdin w st H)
      as [->|(data & tool_name & concept & _ & _ & ->)].
    + exists st. split; [exact H|]. lia.
    + exists (recorded concept st). split; [apply holds_wrote|].
      cbn [recorded toolCount]. lia.
  - destruct (evaluate_step py_repr stdin now w st H)
      as [->|[->|(_ & _ & H')]].
    + exists st. split; [exact H|]. cbn [snd]. lia.
    + exists st. split; [exact H|]. cbn [snd]. lia.
    + exists (prompted now st). split; [exact H'|].
      cbn [prompted toolCount]. lia.
  - exists st. split; [exact H|]. lia.
Qed.

Lemma recorder_calls_cons a acts :
  recorder_calls (a :: acts)
  = (recorder_calls [a] + recorder_calls acts)%nat.
Proof. by destruct a. Qed.

Lemma perform_all_count py_repr acts w st :
  holds w st ->
  0 <= toolCount st ->
  exists st',
    holds (perform_all py_repr acts w) st' /\
    0 <= toolCount st' /\
    toolCount st' <= toolCount st + Z.of_nat (recorder_calls acts).
Proof.
  unfold perform_all. revert w st.
  induction acts as [|a acts IH]; intros w st H H0.
  - exists st. split; [exact H|]. cbn [recorder_calls]. lia.
  - cbn [fold_left].
    destruct (perform_count py_repr a w st H H0) as (st1 & H1 & H01 & Hle1).
    destruct (IH _ _ H1 H01) as (st2 & H2 & H02 & Hle2).
    exists st2. split; [exact H2|]. split; [exact H02|].
    rewrite recorder_calls_cons. lia.
Qed.

(** X13.  A prompt takes three counted events: from a stored state with a
    count [c >= 0], after any sequence of invocations in which the recorder
    runs fewer than [3 - c] times, the evaluator allows, at any time and
    whatever the events were. *)
Theorem prompt_needs_three_counted_events
    py_repr acts stdin now w st :
  holds w st ->
  0 <= toolCount st ->
  toolCount st + Z.of_nat (recorder_calls acts) < 3 ->
  let w' := perform_all py_repr acts w in
  evaluate py_repr stdin now w' = (0, w').
Proof.
  intros H H0 Hlt w'. subst w'.
  destruct (perform_all_count py_repr acts w st H H0) as (st' & H' & _ & Hle).
  rewrite (evaluate_on_state _ _ _ _ _ H').
  destruct (Z.ltb_spec (toolCount st') 3); [|lia].
  by rewrite orb_true_r.
Qed.

Lemma perform_all_monotone py_repr acts w st :
  holds w st ->
  exists st',
    holds (perform_all py_repr acts w) st' /\
    lastLearningPromptAt st <= lastLearningPromptAt st'.
Proof.
  unfold perform_all. revert w st.
  induction acts as [|a acts IH]; intros w st H.
  - exists st. split; [exact H|lia].
  - cbn [fold_left].
    destruct (perform_monotone py_repr a w st H) as (st1 & H1 & Hle1).
    destruct (IH _ _ H1) as (st2 & H2 & Hle2).
    exists st2. split; [exact H2|lia].
Qed.

(** X14.  No prompt inside the cooldown, whatever happens in between: if
    less than 900,000 ms separate [now] from the stored prompt time, then
    after any sequence of recorder and evaluator invocations, however many
    events were counted, the evaluator at [now] allows and changes
    nothing. *)
Theorem no_prompt_inside_cooldown py_repr acts stdin now w st :
  holds w st ->
  now - lastLearningPromptAt st < 900000 ->
  let w' := perform_all py_repr acts w in
  evaluate py_repr stdin now w' = (0, w').
Proof.
  intros H Hlt w'. subst w'.
  destruct (perform_all_monotone py_repr acts w st H) as (st' & H' & Hle).
  rewrite (evaluate_on_state _ _ _ _ _ H').
  destruct (negb (afterModeEnabled st') || (toolCount st' <? 3));
    [reflexivity|].
  destruct (Z.ltb_spec (now - lastLearningPromptAt st') 900000);
    [reflexivity|lia].
Qed.

(** ** The session briefing *)

Lemma unknown_line_dict py_repr r :
  SessionStart.unknown_line py_repr (SessionStart.unknown_dict r)
  = Ok (unknown_bullet py_repr r).
Proof. by destruct r as [[[concept_id related_to] why_important] n]. Qed.

Lemma due_line_dict py_repr r :
  SessionStart.due_line py_repr (SessionStart.review_dict r)
  = Ok (review_bullet py_repr r).
Proof. by destruct r as [concept_id current_level]. Qed.

Lemma append_lines_map {A} line (dict : A -> gmap string pyval)
    (bullet : A -> string) (rows : list A) (lines : list string) :
  (forall r, line (dict r) = Ok (bullet r)) ->
  SessionStart.append_lines line (map dict rows) lines
  = Ok (lines ++ (bullet <$> rows))%list.
Proof.
  intros Hline. revert lines.
  induction rows as [|r rows IH]; intros lines.
  - cbn [map SessionStart.append_lines fmap list_fmap].
    by rewrite app_nil_r.
  - cbn [map SessionStart.append_lines fmap list_fmap].
    rewrite Hline. cbn [bindR]. rewrite IH.
    by rewrite <- app_assoc.
Qed.

Lemma sql_limit_5 {A} (rows : list A) :
  SessionStart.sql_limit 5 rows = take 5 rows.
Proof. reflexivity. Qed.

Lemma get_unknown_unknowns_shown db :
  SessionStart.get_unknown_unknowns 5 db
  = map SessionStart.unknown_dict (shown_unknowns db).
Proof. by destruct db as [|[rows|] due]. Qed.

Lemma get_due_reviews_shown db :
  SessionStart.get_due_reviews 5 db
  = map SessionStart.review_dict (shown_reviews db).
Proof. by destruct db as [|unexplored [rows|]]. Qed.

Lemma context_lines_closed_form py_repr db :
  SessionStart.context_lines py_repr db
  = Ok (briefing_lines py_repr (shown_unknowns db) (shown_reviews db)).
Proof.
  unfold SessionStart.context_lines, briefing_lines.
  rewrite get_unknown_unknowns_shown, get_due_reviews_shown.
  destruct (shown_unknowns db) as [|u us];
    destruct (shown_reviews db) as [|d ds].
  - reflexivity.
  - change (map SessionStart.review_dict (d :: ds))
      with (SessionStart.review_dict d
            :: map SessionStart.review_dict ds).
    cbn [map bindR].
    change (SessionStart.review_dict d :: map SessionStart.review_dict ds)
      with (map SessionStart.review_dict (d :: ds)).
    rewrite (append_lines_map _ _ _ _ _ (due_line_dict py_repr)).
    cbn [bindR briefing_section fmap list_fmap app]. rewrite app_nil_r.
    reflexivity.
  - change (map SessionStart.unknown_dict (u :: us))
      with (SessionStart.unknown_dict u
            :: map SessionStart.unknown_dict us).
    cbn [map bindR].
    change (SessionStart.unknown_dict u :: map SessionStart.unknown_dict us)
      with (map SessionStart.unknown_dict (u :: us)).
    rewrite (append_lines_map _ _ _ _ _ (unknown_line_dict py_repr)).
    cbn [bindR briefing_section fmap list_fmap app]. rewrite app_nil_r.
    reflexivity.
  - change (map SessionStart.unknown_dict (u :: us))
      with (SessionStart.unknown_dict u
            :: map SessionStart.unknown_dict us).
    change (map SessionStart.review_dict (d :: ds))
      with (SessionStart.review_dict d
            :: map SessionStart.review_dict ds).
    cbn [bindR].
    change (SessionStart.unknown_dict u :: map SessionStart.unknown_dict us)
      with (map SessionStart.unknown_dict (u :: us)).
    change (SessionStart.review_dict d :: map SessionStart.review_dict ds)
      with (map SessionStart.review_dict (d :: ds)).
    rewrite (append_lines_map _ _ _ _ _ (unknown_line_dict py_repr)).
    cbn [bindR].
    rewrite (append_lines_map _ _ _ _ _ (due_line_dict py_repr)).
    cbn [bindR briefing_section fmap list_fmap app].
    rewrite app_nil_r, <- ?app_assoc. reflexivity.
Qed.

Lemma shown_unknowns_length db : (length (shown_unknowns db) <= 5)%nat.
Proof.
  destruct db as [|[rows|] due]; cbn [shown_unknowns length]; try lia.
  rewrite length_take. lia.
Qed.

Lemma shown_reviews_length db : (length (shown_reviews db) <= 5)%nat.
Proof.
  destruct db as [|unexplored [rows|]]; cbn [shown_reviews length]; try lia.
  rewrite length_take. lia.
Qed.

Lemma dash_is_bullet s : is_bullet (String "-" (String " " s)) = true.
Proof. by destruct s. Qed.

Lemma unknown_bullet_is_bullet py_repr r :
  is_bullet (unknown_bullet py_repr r) = true.
Proof.
  destruct r as [[[concept_id related_to] why_important] n]. reflexivity.
Qed.

Lemma review_bullet_is_bullet py_repr r :
  is_bullet (review_bullet py_repr r) = true.
Proof. destruct r as [concept_id current_level]. apply dash_is_bullet. Qed.

Lemma filter_bullets {A} (bullet : A -> string) (rows : list A) :
  (forall r, is_bullet (bullet r) = true) ->
  filter (fun line => is_bullet line = true) (bullet <$> rows)
  = bullet <$> rows.
Proof.
  intros Hb. induction rows as [|r rows IH]; [reflexivity|].
  cbn [fmap list_fmap]. rewrite filter_cons_True by apply Hb.
  f_equal. exact IH.
Qed.

Lemma briefing_section_bullets {A} title (bullet : A -> string)
    (rows : list A) :
  is_bullet title = false ->
  (forall r, is_bullet (bullet r) = true) ->
  filter (fun line => is_bullet line = true)
    (briefing_section title (bullet <$> rows))
  = bullet <$> rows.
Proof.
  intros Ht Hb. destruct rows as [|r rows]; [reflexivity|].
  change (briefing_section title (bullet <$> r :: rows))
    with (title :: (bullet <$> r :: rows) ++ [""])%list.
  rewrite filter_cons_False by (rewrite Ht; discriminate).
  rewrite filter_app, (filter_bullets _ _ Hb).
  rewrite filter_cons_False by discriminate.
  by rewrite filter_nil, app_nil_r.
Qed.

Lemma briefing_section_length title items :
  (length (briefing_section title items) <= length items + 2)%nat.
Proof.
  destruct items as [|x xs]; cbn [briefing_section length]; [lia|].
  rewrite length_app. cbn [length]. lia.
Qed.

Lemma briefing_section_without_no_pending {A} title
    (bullet : A -> string) (rows : list A) :
  title <> SessionStart.no_pending ->
  (forall r, is_bullet (bullet r) = true) ->
  Forall (fun line => line <> SessionStart.no_pending)
    (briefing_section title (bullet <$> rows)).
Proof.
  intros Ht Hb. destruct rows as [|r rows]; [constructor|].
  change (briefing_section title (bullet <$> r :: rows))
    with (title :: (bullet <$> r :: rows) ++ [""])%list.
  apply Forall_cons. split; [exact Ht|].
  apply Forall_app. split.
  - apply Forall_fmap, Forall_forall. intros x _ E.
    pose proof (Hb x) as Hx. cbn in E. rewrite E in Hx. discriminate Hx.
  - apply Forall_cons. split; [discriminate|constructor].
Qed.

Lemma briefing_lines_without_no_pending py_repr unknowns due :
  unknowns <> [] \/ due <> [] ->
  Forall (fun line => line <> SessionStart.no_pending)
    (briefing_lines py_repr unknowns due).
Proof.
  intros Hsome. unfold briefing_lines.
  apply Forall_app. split.
  { apply Forall_cons. split; [discriminate|].
    apply Forall_cons. split; [discriminate|constructor]. }
  apply Forall_app. split.
  { apply briefing_section_without_no_pending; [discriminate|].
    apply unknown_bullet_is_bullet. }
  apply Forall_app. split.
  { apply briefing_section_without_no_pending; [discriminate|].
    apply review_bullet_is_bullet. }
  destruct unknowns as [|u us]; destruct due as [|d ds];
    [by destruct Hsome|constructor..].
Qed.


(** X15.  [generate_context] never raises, whatever the state of the
    database: it returns the header, then one section per non-empty
    category with one bullet per row in the order of the query, at most
    the first five rows of each, a missing database or a failing query
    counting as no row. *)
Theorem generate_context_shows_first_five py_repr db :
  SessionStart.generate_context py_repr db
  = Ok (String.concat SessionStart.nl
          (briefing_lines py_repr (shown_unknowns db) (shown_reviews db)))
  /\ (length (shown_unknowns db) <= 5)%nat
  /\ (length (shown_reviews db) <= 5)%nat
  /\ (forall rows due,
        db = SessionStart.Database (Some rows) due ->
        shown_unknowns db `prefix_of` rows)
  /\ (forall unexplored rows,
        db = SessionStart.Database unexplored (Some rows) ->
        shown_reviews db `prefix_of` rows).
Proof.
  split.
  { unfold SessionStart.generate_context.
    by rewrite context_lines_closed_form. }
  split; [apply shown_unknowns_length|].
  split; [apply shown_reviews_length|].
  split.
  - intros rows due ->. cbn [shown_unknowns]. apply prefix_take.
  - intros unexplored rows ->. cbn [shown_reviews]. apply prefix_take.
Qed.

Lemma no_pending_in_lines py_repr unknowns due :
  SessionStart.no_pending ∈ briefing_lines py_repr unknowns due <->
  unknowns = [] /\ due = [].
Proof.
  split.
  - intros Hin.
    destruct unknowns as [|u us]; destruct due as [|d ds];
      [done|exfalso..].
    + refine (proj1 (Forall_forall _ _)
                (briefing_lines_without_no_pending py_repr [] (d :: ds) _)
                _ Hin eq_refl).
      by right.
    + refine (proj1 (Forall_forall _ _)
                (briefing_lines_without_no_pending py_repr (u :: us) [] _)
                _ Hin eq_refl).
      by left.
    + refine (proj1 (Forall_forall _ _)
                (briefing_lines_without_no_pending py_repr (u :: us)
                   (d :: ds) _)
                _ Hin eq_refl).
      by left.
  - intros [-> ->]. unfold briefing_lines. cbn. do 2 right. left.
Qed.

(** *** The lines of the returned text *)

Lemma lines_of_nonempty s : lines_of s <> [].
Proof.
  destruct s as [|c r]; cbn [lines_of]; [discriminate|].
  destruct (Ascii.eqb c newline); [discriminate|].
  by destruct (lines_of r).
Qed.

Lemma lines_of_single x : newline_free x = true -> lines_of x = [x].
Proof.
  induction x as [|c r IH]; [reflexivity|].
  cbn [newline_free lines_of]. intros Hfree.
  apply andb_true_iff in Hfree as [Hc Hr].
  apply negb_true_iff in Hc. rewrite Hc, (IH Hr). reflexivity.
Qed.

Lemma lines_of_cons x rest :
  newline_free x = true ->
  lines_of (x ++ SessionStart.nl ++ rest)%string = x :: lines_of rest.
Proof.
  induction x as [|c r IH]; [reflexivity|].
  cbn [newline_free]. intros Hfree.
  apply andb_true_iff in Hfree as [Hc Hr].
  apply negb_true_iff in Hc.
  change (String c r ++ SessionStart.nl ++ rest)%string
    with (String c (r ++ SessionStart.nl ++ rest))%string.
  cbn [lines_of]. rewrite Hc, (IH Hr). reflexivity.
Qed.

Lemma lines_of_concat (lines : list string) :
  lines <> [] ->
  Forall (fun l => newline_free l = true) lines ->
  lines_of (String.concat SessionStart.nl lines) = lines.
Proof.
  induction lines as [|x [|y rest] IH]; intros Hne Hfree; [done| |].
  - cbn [String.concat]. apply lines_of_single.
    by apply Forall_cons in Hfree as [? _].
  - apply Forall_cons in Hfree as [Hx Hrest].
    change (String.concat SessionStart.nl (x :: y :: rest))
      with (x ++ SessionStart.nl
              ++ String.concat SessionStart.nl (y :: rest))%string.
    rewrite (lines_of_cons _ _ Hx), IH; [reflexivity|discriminate|exact Hrest].
Qed.

Lemma briefing_section_single_line {A} title (bullet : A -> string)
    (rows : list A) :
  newline_free title = true ->
  Forall (fun r => newline_free (bullet r) = true) rows ->
  Forall (fun l => newline_free l = true)
    (briefing_section title (bullet <$> rows)).
Proof.
  intros Ht Hrows. destruct rows as [|r rows]; [constructor|].
  change (briefing_section title (bullet <$> r :: rows))
    with (title :: (bullet <$> r :: rows) ++ [""])%list.
  apply Forall_cons. split; [exact Ht|].
  apply Forall_app. split; [by apply Forall_fmap|].
  by repeat constructor.
Qed.

(** With single-line rows, the lines of the text [generate_context]
    returns are the entries of its list [lines]. *)
Lemma briefing_text_lines py_repr db :
  single_line_rows py_repr db ->
  exists text,
    SessionStart.generate_context py_repr db = Ok text /\
    lines_of text
    = briefing_lines py_repr (shown_unknowns db) (shown_reviews db).
Proof.
  intros [Hu Hd]. eexists. split.
  { unfold SessionStart.generate_context.
    by rewrite context_lines_closed_form. }
  apply lines_of_concat; [discriminate|].
  unfold briefing_lines.
  apply Forall_app. split; [by repeat constructor|].
  apply Forall_app. split;
    [by apply briefing_section_single_line|].
  apply Forall_app. split;
    [by apply briefing_section_single_line|].
  destruct (shown_unknowns db), (shown_reviews db); by repeat constructor.
Qed.

(** X16.  With a missing database, or with both queries failing, or with
    both lists coming back empty, the briefing is the header followed by
    the line "No pending items. Ready to learn!".  When no text shown in a
    bullet holds a newline, that line is among the lines of the returned
    briefing exactly when both lists come back empty: one answered row is
    enough to drop it, even if the other query fails. *)
Theorem no_pending_line_iff_nothing_to_show py_repr db :
  (SessionStart.get_unknown_unknowns 5 db = [] ->
   SessionStart.get_due_reviews 5 db = [] ->
   SessionStart.generate_context py_repr db = Ok empty_briefing) /\
  SessionStart.generate_context py_repr SessionStart.NoDatabase
  = Ok empty_briefing /\
  SessionStart.generate_context py_repr (SessionStart.Database None None)
  = Ok empty_briefing /\
  (forall text,
     SessionStart.generate_context py_repr db = Ok text ->
     single_line_rows py_repr db ->
     SessionStart.no_pending ∈ lines_of text <->
     SessionStart.get_unknown_unknowns 5 db = [] /\
     SessionStart.get_due_reviews 5 db = []).
Proof.
  assert (Hempty :
    SessionStart.get_unknown_unknowns 5 db = [] ->
    SessionStart.get_due_reviews 5 db = [] ->
    SessionStart.generate_context py_repr db = Ok empty_briefing).
  { rewrite get_unknown_unknowns_shown, get_due_reviews_shown.
    intros Hu Hd. unfold SessionStart.generate_context.
    rewrite context_lines_closed_form.
    destruct (shown_unknowns db); [|discriminate Hu].
    destruct (shown_reviews db); [|discriminate Hd].
    reflexivity. }
  split; [exact Hempty|].
  split; [reflexivity|]. split; [reflexivity|].
  intros text Htext Hsingle.
  destruct (briefing_text_lines py_repr db Hsingle) as (text' & E & Hlines).
  rewrite Htext in E. injection E as <-.
  rewrite Hlines, no_pending_in_lines.
  rewrite get_unknown_unknowns_shown, get_due_reviews_shown.
  split.
  - by intros [-> ->].
  - intros [Hu Hd].
    destruct (shown_unknowns db); [|discriminate Hu].
    by destruct (shown_reviews db); [|discriminate Hd].
Qed.

Lemma briefing_bullets py_repr unknowns due :
  filter (fun line => is_bullet line = true)
    (briefing_lines py_repr unknowns due)
  = ((unknown_bullet py_repr <$> unknowns)
     ++ (review_bullet py_repr <$> due))%list.
Proof.
  unfold briefing_lines. rewrite !filter_app.
  rewrite (briefing_section_bullets SessionStart.unknowns_title _ _ eq_refl
             (unknown_bullet_is_bullet py_repr)).
  rewrite (briefing_section_bullets SessionStart.due_title _ _ eq_refl
             (review_bullet_is_bullet py_repr)).
  rewrite filter_cons_False by discriminate.
  rewrite filter_cons_False by discriminate.
  rewrite filter_nil. cbn [app].
  destruct unknowns, due; cbn [fmap list_fmap app];
    rewrite ?filter_nil, ?app_nil_r; reflexivity.
Qed.

(** X17.  However many rows the database holds, when no text shown in a
    bullet holds a newline the returned briefing starts with the header
    line, has between 4 and 16 lines, and at most 10 of them are
    bullets. *)
Theorem briefing_is_bounded py_repr db :
  single_line_rows py_repr db ->
  exists text,
    SessionStart.generate_context py_repr db = Ok text /\
    head (lines_of text) = Some SessionStart.header /\
    (4 <= length (lines_of text) <= 16)%nat /\
    (length (filter (fun line => is_bullet line = true) (lines_of text))
     <= 10)%nat.
Proof.
  intros Hsingle.
  destruct (briefing_text_lines py_repr db Hsingle) as (text & E & Hlines).
  exists text. split; [exact E|]. rewrite Hlines.
  split; [reflexivity|].
  pose proof (shown_unknowns_length db) as Hu.
  pose proof (shown_reviews_length db) as Hd.
  split.
  - unfold briefing_lines. rewrite !length_app. cbn [length].
    pose proof (briefing_section_length SessionStart.unknowns_title
                  (unknown_bullet py_repr <$> shown_unknowns db)) as Hsu.
    pose proof (briefing_section_length SessionStart.due_title
                  (review_bullet py_repr <$> shown_reviews db)) as Hsd.
    rewrite length_fmap in Hsu. rewrite length_fmap in Hsd.
    destruct (shown_unknowns db) as [|u us];
      destruct (shown_reviews db) as [|d ds];
      cbn [briefing_section fmap list_fmap length] in *;
      rewrite ?length_app in *; cbn [length] in *; lia.
  - rewrite briefing_bullets, length_app, !length_fmap. lia.
Qed.


(** When the state file cannot be opened for writing, a significant
    well-formed event ends the recorder, and a due prompt ends the
    evaluator, with an uncaught [OSError] and an untouched world, whatever
    [str.lower] is beyond ASCII. *)
Lemma write_failure_is_not_caught py_repr stdin now
    (data : gmap string pyval) w st :
  holds w st ->
  dir_creatable w = true ->
  file_writable w = false ->
  (well_formed_event data ->
   py_in_strs (default (PStr "") (data !! "tool_name"))
     TrackActivity.SIGNIFICANT_TOOLS = true ->
   TrackActivity.main (Some (PDict data)) w = (Raise OSError, w)) /\
  (afterModeEnabled st = true ->
   3 <= toolCount st ->
   900000 <= now - lastLearningPromptAt st ->
   CheckLearning.main py_repr stdin now w = (Raise OSError, w)).
Proof.
  intros Hst Hd Hw. split.
  - intros Hev Hs.
    destruct (event_concept_well_formed data
                (default (PStr "") (data !! "tool_name")) Hev)
      as [concept Hc].
    by rewrite (track_activity_on_state (PDict data) _ _ _ Hst eq_refl Hs),
      Hd, Hc, Hw.
  - intros Ha Hc Ht.
    rewrite (check_learning_on_state _ _ _ _ _ Hst), Ha, Hd, Hw.
    cbn [negb orb andb].
    destruct (Z.ltb_spec (toolCount st) 3); [lia|].
    destruct (Z.ltb_spec (now - lastLearningPromptAt st) 900000); [lia|].
    reflexivity.
Qed.

End Hooks.

(** * Concrete runs

    The inputs below are ASCII text, on which [str.lower] is the ASCII
    case fold. *)

#[local] Existing Instance ascii_fold.


Lemma evaluate_allows_during_cooldown_witness :
  let w := sample_world
             (Content (PDict (state_json (authentication_state 5 1700000000000)))) in
  let r := evaluate (fun _ => "") None 1700000600000 w in
  decides w r Allow /\
  r.2 = w /\
  forall stdin' now',
    afterModeEnabled (authentication_state 5 1700000000000) = true ->
    dir_creatable w = true ->
    file_writable w = true ->
    900000 <= now' - lastLearningPromptAt (authentication_state 5 1700000000000) ->
    decides r.2 (evaluate (fun _ => "") stdin' now' r.2)
      (Block (CheckLearning.reason
                (conceptHint (authentication_state 5 1700000000000)))).
Proof.
  apply (evaluate_allows_during_cooldown
           (fun _ => "") None 1700000600000
           (sample_world
              (Content (PDict (state_json (authentication_state 5 1700000000000)))))
           (authentication_state 5 1700000000000));
    try reflexivity; simpl; lia.
Defined.

Lemma recordEvent_keeps_recentConcepts_bounded_distinct_witness :
  let w := sample_world (Content (PDict (state_json full_state))) in
  let stdin := Some (edit_event "/src/auth/login.ts") in
  (exists st',
     holds (recordEvent stdin w).2 st' /\
     (length (recentConcepts st') <= 10)%nat /\
     NoDup (recentConcepts st')) /\
  exists st',
    holds (recordEvent stdin w).2 st' /\
    recentConcepts st' = (tail ten_topics ++ ["authentication"])%list /\
    length (recentConcepts st') = 10%nat.
Proof.
  intros w stdin.
  assert (Hlen : (length (recentConcepts full_state) <= 10)%nat)
    by (simpl; lia).
  assert (Hnd : NoDup (recentConcepts full_state))
    by (refine (bool_decide_unpack (NoDup ten_topics) _); vm_compute;
        exact I).
  destruct (recordEvent_keeps_recentConcepts_bounded_distinct
              stdin w full_state eq_refl Hlen Hnd) as [Hinv Hevict].
  split; [exact Hinv|].
  apply (Hevict (edit_event "/src/auth/login.ts") (PStr "Edit")
           "authentication" "t0" (tail ten_topics));
    try reflexivity.
  refine (bool_decide_unpack ("authentication" ∉ ten_topics) _).
  vm_compute. exact I.
Defined.

Lemma recordEvent_known_topic_keeps_recentConcepts_witness :
  let st := authentication_state 4 0 in
  let w := sample_world (Content (PDict (state_json st))) in
  let data := edit_event "/src/auth/login.ts" in
  (exists st',
     holds (recordEvent (Some data) w).2 st' /\
     recentConcepts st' = ["authentication"]) /\
  (dir_creatable w = true ->
   file_writable w = true ->
   recordEvent (Some data) w =
     (0, wrote (PDict (state_json (authentication_state 5 0))) w)).
Proof.
  apply (recordEvent_known_topic_keeps_recentConcepts
           (edit_event "/src/auth/login.ts") (PStr "Edit") "authentication"
           (sample_world (Content (PDict (state_json (authentication_state 4 0)))))
           (authentication_state 4 0));
    try reflexivity.
  refine (bool_decide_unpack ("authentication" ∈ ["authentication"]) _).
  vm_compute. exact I.
Defined.

Lemma recordEvent_ignores_insignificant_tools_witness :
  let w := sample_world (Content (PDict (state_json (authentication_state 2 0)))) in
  TrackActivity.main (Some (PDict read_event)) w = (SysExit 0, w) /\
  recordEvent (Some (PDict read_event)) w = (0, w) /\
  written (recordEvent (Some (PDict read_event)) w).2 = written w /\
  tracker_file (recordEvent (Some (PDict read_event)) w).2 = tracker_file w.
Proof.
  apply (recordEvent_ignores_insignificant_tools read_event).
  intros s Hs.
  change (default (PStr "") (read_event !! "tool_name")) with (PStr "Read").
  intros [= <-].
  refine (bool_decide_eq_false_1
            ("Read" ∈ TrackActivity.SIGNIFICANT_TOOLS) _ Hs).
  vm_compute. reflexivity.
Defined.

Lemma lastLearningPromptAt_never_decreases_witness :
  let w := sample_world (Content (PDict (state_json (authentication_state 2 1000)))) in
  let acts := [RecordEvent (Some (edit_event "/src/auth/login.ts"));
               Evaluate None 1700000000000;
               Environment true false;
               Evaluate None 5] in
  exists st',
    holds (perform_all (fun _ => "") acts w) st' /\
    1000 <= lastLearningPromptAt st'.
Proof.
  intros w acts.
  exact (proj2 (proj2 lastLearningPromptAt_never_decreases)
           (fun _ => "") acts w (authentication_state 2 1000) eq_refl).
Defined.

Lemma extract_concept_first_match_witness :
  TrackActivity.extract_concept (PStr "Bash") (PDict git_input)
  = Ok (Some "git-workflow") /\
  inferTopic "src/api/routes/user.tsx" "" = Some "api-design".
Proof.
  destruct extract_concept_first_match as (Hrefines & Hfirst & _).
  split.
  - exact (Hrefines (PStr "Bash") git_input "" "" "git commit -m x"
             eq_refl (fun _ => eq_refl) eq_refl).
  - apply (Hfirst "src/api/routes/user.tsx" ""
             [(["test"; "spec"], "unit-testing");
              (["auth"; "login"; "jwt"], "authentication")]
             (["api"; "endpoint"; "route"], "api-design")
             [(["cache"; "redis"], "caching");
              ([".tsx"; ".jsx"], "react-components");
              (["db"; "database"; "prisma"], "database")]);
      [reflexivity| |reflexivity].
    intros earlier Hin.
    apply list_elem_of_In in Hin.
    destruct Hin as [<-|[<-|[]]]; reflexivity.
Defined.

Lemma missing_fields_default_at_point_of_use_witness :
  agree_up_to_defaults
    (CheckLearning.main (fun _ => "") None 1700000000000
       (sample_world (Content (PDict (count_only 5)))))
    (CheckLearning.main (fun _ => "") None 1700000000000
       (set_file (Content (PDict (with_defaults (count_only 5))))
          (sample_world (Content (PDict (count_only 5)))))).
Proof.
  exact (proj1 missing_fields_default_at_point_of_use
           (fun _ => "") None 1700000000000
           (sample_world (Content (PDict (count_only 5))))
           (count_only 5) eq_refl).
Defined.

(** On the object [{"tool_count": 5}] the evaluator blocks with the
    fallback hint and writes back the two fields it assigns and no other:
    the fields it defaulted are not added to the file. *)
Example evaluate_count_only :
  evaluate (fun _ => "") None 1700000000000
    (sample_world (Content (PDict (count_only 5))))
  = (0,
     printed (CheckLearning.block_document
                (CheckLearning.reason "the task you just completed"))
       (wrote (PDict (<["last_learning_prompt" := PInt 1700000000000]>
                        (count_only 0)))
          (sample_world (Content (PDict (count_only 5)))))).
Proof. vm_compute. reflexivity. Qed.

(** On the empty object the recorder counts the event and stores the
    topic, again without adding the other fields. *)
Example recordEvent_empty_object :
  recordEvent (Some (edit_event "/src/auth/login.ts"))
    (sample_world (Content (PDict ∅)))
  = (0,
     wrote (PDict (<["concepts" := PList [PStr "authentication"]]>
                     (count_only 1)))
       (sample_world (Content (PDict ∅)))).
Proof. vm_compute. reflexivity. Qed.

(** C5, as stated, fails: when the state file cannot be written, either
    hook ends with an uncaught [OSError], exit status 1; the evaluator has
    then printed no decision. *)
Lemma hooks_exit_1_when_write_fails :
  let w := unwritable_world
             (Content (PDict (state_json (authentication_state 3 0)))) in
  TrackActivity.main (Some (edit_event "/src/auth/login.ts")) w
  = (Raise OSError, w) /\
  (recordEvent (Some (edit_event "/src/auth/login.ts")) w).1 = 1 /\
  CheckLearning.main (fun _ => "") None 1700000000000 w = (Raise OSError, w) /\
  (evaluate (fun _ => "") None 1700000000000 w).1 = 1 /\
  ~ (forall stdin now w,
       (recordEvent stdin w).1 = 0 /\
       (evaluate (fun _ => "") stdin now w).1 = 0).
Proof.
  intros w.
  assert (H1 : TrackActivity.main (Some (edit_event "/src/auth/login.ts")) w
               = (Raise OSError, w)) by (vm_compute; reflexivity).
  assert (H2 : CheckLearning.main (fun _ => "") None 1700000000000 w
               = (Raise OSError, w)) by (vm_compute; reflexivity).
  split; [exact H1|].
  split; [unfold recordEvent, run; by rewrite H1|].
  split; [exact H2|].
  split; [unfold evaluate, run; by rewrite H2|].
  intros Hall.
  destruct (Hall (Some (edit_event "/src/auth/login.ts")) 0 w) as [Hrec _].
  unfold recordEvent, run in Hrec. rewrite H1 in Hrec. discriminate Hrec.
Qed.

(** An event document that is valid JSON but not an object, here the empty
    array, also ends the recorder with an uncaught exception. *)
Example recordEvent_array_input :
  forall w, TrackActivity.main (Some (PList [])) w = (Raise AttributeError, w).
Proof. reflexivity. Qed.

Lemma hooks_exit_0_when_state_writable_witness :
  (recordEvent (Some (edit_event "/src/auth/login.ts"))
     (sample_world Absent)).1 = 0 /\
  (evaluate (fun _ => "") (Some (PList [])) 1700000000000
     (sample_world (Content (PDict (state_json (authentication_state 3 0)))))).1
  = 0.
Proof.
  destruct hooks_exit_0_when_state_writable
    as (_ & Hdefault & Hrec & Heval).
  split.
  - apply (Hrec (<["tool_name" := PStr "Edit"]>
                   (<["tool_input" :=
                        PDict (<["file_path" := PStr "/src/auth/login.ts"]> ∅)]>
                      ∅))
             (sample_world Absent) default_state).
    + vm_compute. repeat split.
    + apply Hdefault. by left.
    + reflexivity.
    + reflexivity.
  - apply (Heval (fun _ => "") (Some (PList [])) 1700000000000
             (sample_world (Content (PDict (state_json (authentication_state 3 0)))))
             (authentication_state 3 0)); reflexivity.
Defined.

(** From [{tool_count: 2, after_enabled: true, last_learning_prompt: 0}]
    with no concept yet, one [Edit] on [/src/auth/login.ts] gives
    [tool_count = 3] and [concepts = ["authentication"]]; the evaluator run
    right after blocks with the hint "authentication". *)
Example record_then_evaluate :
  let st := {| toolCount := 2; lastLearningPromptAt := 0;
               afterModeEnabled := true; seniorModeEnabled := true;
               recentConcepts := [] |} in
  let w0 := sample_world (Content (PDict (state_json st))) in
  let w1 := (recordEvent (Some (edit_event "/src/auth/login.ts")) w0).2 in
  holds w1 (authentication_state 3 0) /\
  decides w1 (evaluate (fun _ => "") None 1700000000000 w1)
    (Block (CheckLearning.reason "authentication")) /\
  holds (evaluate (fun _ => "") None 1700000000000 w1).2
    (authentication_state 0 1700000000000).
Proof. vm_compute. repeat split. Qed.

(** Below the threshold the evaluator allows, whatever the cooldown. *)
Example evaluate_below_threshold :
  let w := sample_world (Content (PDict (state_json (authentication_state 2 0)))) in
  evaluate (fun _ => "") None 1700000000000 w = (0, w).
Proof. vm_compute. reflexivity. Qed.

(** A tracker file holding a JSON array: [tracker.get] raises. *)
Example evaluate_array_file :
  let w := sample_world (Content (PList [])) in
  CheckLearning.main (fun _ => "") None 1700000000000 w
  = (Raise AttributeError, w).
Proof. reflexivity. Qed.

(** The command rules are case-sensitive, the path rules are not. *)
Example extract_concept_case :
  TrackActivity.extract_concept (PStr "Bash")
    (PDict (<["command" := PStr "GIT status"]> ∅)) = Ok None /\
  TrackActivity.extract_concept (PStr "Edit")
    (PDict (<["file_path" := PStr "SRC/AUTH/Login.ts"]> ∅))
  = Ok (Some "authentication").
Proof. vm_compute. split; reflexivity. Qed.

Lemma evaluate_allows_below_threshold_witness :
  let w := unwritable_world
             (Content (PDict (state_json (authentication_state 2 0)))) in
  evaluate (fun _ => "") None 1700000000000 w = (0, w) /\
  decides w (evaluate (fun _ => "") None 1700000000000 w) Allow.
Proof.
  apply (evaluate_allows_below_threshold (fun _ => "") None 1700000000000
           (unwritable_world
              (Content (PDict (state_json (authentication_state 2 0)))))
           (authentication_state 2 0)).
  - reflexivity.
  - right. simpl. lia.
Defined.

Lemma evaluate_tests_after_mode_first_witness :
  let w := sample_world (Content (PDict disabled_object)) in
  CheckLearning.main (fun _ => "") None 1700000000000 w = (SysExit 0, w).
Proof.
  intros w.
  exact (proj1 (evaluate_tests_after_mode_first (fun _ => "") None
                  1700000000000 w disabled_object eq_refl) eq_refl).
Defined.

Lemma evaluate_writes_two_fields_or_nothing_witness :
  let w := sample_world (Content (PDict (count_only 5))) in
  (CheckLearning.main (fun _ => "") None 1700000000000 w).2 = w \/
  exists (d d' : gmap string pyval) promptText,
    loaded w = PDict d /\
    CheckLearning.main (fun _ => "") None 1700000000000 w =
      (SysExit 0,
       printed (CheckLearning.block_document promptText)
         (wrote (PDict d') w)) /\
    d' !! "tool_count" = Some (PInt 0) /\
    d' !! "last_learning_prompt" = Some (PInt 1700000000000) /\
    forall key,
      key <> "tool_count" -> key <> "last_learning_prompt" ->
      d' !! key = d !! key.
Proof.
  exact (evaluate_writes_two_fields_or_nothing (fun _ => "") None
           1700000000000 (sample_world (Content (PDict (count_only 5))))).
Defined.

Lemma recordEvent_writes_two_fields_or_nothing_witness :
  let stdin := Some (edit_event "src/cache/store.py") in
  let w := sample_world (Content (PDict (count_only 5))) in
  stdout (TrackActivity.main stdin w).2 = stdout w /\
  ((TrackActivity.main stdin w).2 = w \/
   exists (d d' : gmap string pyval) count,
     loaded w = PDict d /\
     TrackActivity.main stdin w = (SysExit 0, wrote (PDict d') w) /\
     py_add_int (default (PInt 0) (d !! "tool_count")) 1 = Ok count /\
     d' !! "tool_count" = Some count /\
     forall key,
       key <> "tool_count" -> key <> "concepts" -> d' !! key = d !! key).
Proof.
  exact (recordEvent_writes_two_fields_or_nothing
           (Some (edit_event "src/cache/store.py"))
           (sample_world (Content (PDict (count_only 5))))).
Defined.

Lemma recordEvent_counts_one_witness :
  let st := authentication_state 4 0 in
  let w := sample_world (Content (PDict (state_json st))) in
  exists st',
    recordEvent (Some (edit_event "src/cache/store.py")) w
    = (0, wrote (PDict (state_json st')) w) /\
    toolCount st' = 5 /\
    lastLearningPromptAt st' = 0 /\
    afterModeEnabled st' = true /\
    seniorModeEnabled st' = true /\
    (recentConcepts st' = ["authentication"] \/
     exists topic,
       (topic ∉ ["authentication"]) /\
       last (recentConcepts st') = Some topic).
Proof.
  intros st w.
  refine (recordEvent_counts_one
            (<["tool_name" := PStr "Edit"]>
               (<["tool_input" :=
                    PDict (<["file_path" := PStr "src/cache/store.py"]> ∅)]>
                  ∅))
            w st eq_refl _ eq_refl eq_refl eq_refl).
  vm_compute. repeat split.
Defined.


Lemma recordEvent_needs_state_directory_witness :
  let w := {| tracker_file := Corrupt; dir_creatable := false;
              file_writable := true; written := []; stdout := [] |} in
  TrackActivity.main (Some (edit_event "src/cache/store.py")) w
  = (Raise OSError, w) /\
  recordEvent (Some (edit_event "src/cache/store.py")) w = (1, w).
Proof.
  intros w.
  exact (recordEvent_needs_state_directory
           (edit_event "src/cache/store.py") (PStr "Edit") w
           eq_refl eq_refl eq_refl).
Defined.

Lemma first_run_starts_from_defaults_witness :
  let w := sample_world Corrupt in
  evaluate (fun _ => "") None 1700000000000 w = (0, w).
Proof.
  intros w.
  exact (proj1 (first_run_starts_from_defaults (fun _ => "") None
                  1700000000000 ∅ w (or_intror eq_refl))).
Defined.

Lemma extract_concept_returns_a_label_witness :
  "caching" ∈ topic_labels /\ "caching" <> "".
Proof.
  exact (extract_concept_returns_a_label (PStr "Edit")
           (PDict odd_command_input) "caching" eq_refl).
Defined.

Lemma path_match_shadows_command_witness :
  TrackActivity.extract_concept (PStr "Edit") (PDict odd_command_input)
  = Ok (Some "caching").
Proof.
  refine (proj1 (path_match_shadows_command (PStr "Edit") odd_command_input
                   "src/cache/store.py" eq_refl _)
            (["cache"; "redis"], "caching") eq_refl).
  discriminate.
Defined.

Lemma falsy_file_path_falls_back_to_path_witness :
  TrackActivity.extract_concept (PStr "Edit") (PDict null_file_path_input)
  = TrackActivity.extract_concept (PStr "Edit")
      (PDict (delete "file_path" null_file_path_input)).
Proof.
  exact (falsy_file_path_falls_back_to_path (PStr "Edit")
           null_file_path_input PNone eq_refl eq_refl).
Defined.

Example null_file_path_uses_path :
  TrackActivity.extract_concept (PStr "Edit") (PDict null_file_path_input)
  = Ok (Some "unit-testing").
Proof. vm_compute. reflexivity. Qed.

Lemma recentConcepts_only_grows_witness :
  let acts := [RecordEvent (Some (edit_event "/src/auth/login.ts"));
               RecordEvent (Some (edit_event "src/cache/store.py"));
               Evaluate None 1700000000000;
               RecordEvent (Some (edit_event "/src/auth/login.ts"))] in
  exists st',
    holds (perform_all (fun _ => "") acts (sample_world Absent)) st' /\
    labelled st' /\
    (length (recentConcepts st') <= 8)%nat /\
    [] `prefix_of` recentConcepts st'.
Proof.
  intros acts.
  refine (recentConcepts_only_grows (fun _ => "") acts (sample_world Absent)
            default_state eq_refl _).
  split; [apply NoDup_nil_2|]. intros c Hc. by apply elem_of_nil in Hc.
Defined.

Lemma prompt_needs_three_counted_events_witness :
  let acts := [Evaluate None 1700000000000;
               RecordEvent (Some (edit_event "/src/auth/login.ts"));
               RecordEvent (Some (edit_event "src/cache/store.py"))] in
  let w := sample_world
             (Content (PDict (state_json (authentication_state 7 0)))) in
  let w' := perform_all (fun _ => "") acts
              (evaluate (fun _ => "") None 1600000000000 w).2 in
  evaluate (fun _ => "") None 1800000000000 w' = (0, w').
Proof.
  intros acts w.
  refine (prompt_needs_three_counted_events (fun _ => "") acts None
            1800000000000 (evaluate (fun _ => "") None 1600000000000 w).2
            (authentication_state 0 1600000000000) _ _ _).
  - vm_compute. reflexivity.
  - simpl. lia.
  - simpl. lia.
Defined.

Lemma no_prompt_inside_cooldown_witness :
  let acts := [RecordEvent (Some (edit_event "/src/auth/login.ts"));
               RecordEvent (Some (edit_event "src/cache/store.py"));
               RecordEvent (Some (edit_event "src/api/routes.py"));
               RecordEvent (Some (edit_event "src/db/model.py"))] in
  let w := sample_world
             (Content (PDict (state_json
                                (authentication_state 0 1700000000000)))) in
  let w' := perform_all (fun _ => "") acts w in
  evaluate (fun _ => "") None 1700000600000 w' = (0, w').
Proof.
  intros acts w.
  refine (no_prompt_inside_cooldown (fun _ => "") acts None 1700000600000 w
            (authentication_state 0 1700000000000) eq_refl _).
  simpl. lia.
Defined.

Lemma generate_context_shows_first_five_witness :
  shown_unknowns sample_database `prefix_of` sample_rows.
Proof.
  exact (proj1 (proj2 (proj2 (proj2
           (generate_context_shows_first_five (fun _ => "")
              sample_database))))
           sample_rows (Some [(PStr "jwt", PInt 2)]) eq_refl).
Defined.

Lemma no_pending_line_iff_nothing_to_show_witness :
  SessionStart.generate_context (fun _ => "")
    (SessionStart.Database (Some []) None)
  = Ok empty_briefing.
Proof.
  exact (proj1 (no_pending_line_iff_nothing_to_show (fun _ => "")
                  (SessionStart.Database (Some []) None))
           eq_refl eq_refl).
Defined.


Lemma briefing_is_bounded_witness :
  exists text,
    SessionStart.generate_context (fun _ => "") sample_database = Ok text /\
    head (lines_of text) = Some SessionStart.header /\
    (4 <= length (lines_of text) <= 16)%nat /\
    (length (filter (fun line => is_bullet line = true) (lines_of text))
     <= 10)%nat.
Proof.
  apply (briefing_is_bounded (fun _ => "") sample_database).
  split; vm_compute; repeat constructor.
Defined.
